(** * HID driver for Eizo EV FlexScan monitors: the feature-report protocol

    A shallow embedding of [eizo.c]: the two protocol entry points
    [eizo_set_value] and [eizo_get_value], the session initialiser
    [eizo_data_init] and the notification sink
    [eizo_hid_driver_raw_event], followed by the properties of the
    protocol specification.

    Conventions.
    - C integers are [Z]; a [u8] is a [Z] in [0, 256), a [u16] in
      [0, 2^16), a [u32] in [0, 2^32).  Conversions to a narrower
      unsigned type are written out ([to_u8], [to_u16], [to_u32]).
    - [size_t] lengths and array indices are [nat].
    - A byte buffer is a [list Z]; the list's length is the size of the
      underlying object, so an access past it is detected and modelled
      as a [Fault] (the C program has undefined behaviour there).
    - Kernel services ([kzalloc], [kfree], [mutex_lock], [IS_ERR],
      [hid_get_drvdata], [hid_info], [hid_err]) are modelled by their
      documented contracts; the bus primitive [hid_hw_raw_request] is a
      parameter of the development. *)

From Stdlib Require Import String ZArith List Lia Bool DecimalString.
Import ListNotations.
Local Open Scope string_scope.
Local Open Scope list_scope.
Local Open Scope Z_scope.

(** ** Kernel vocabulary *)

Module Errno.
Definition ENOMEM : Z := 12.
Definition EIO : Z := 5.
Definition ENODEV : Z := 19.
Definition EINVAL : Z := 22.
Definition EPIPE : Z := 32.
Definition ENODATA : Z := 61.
Definition MAX_ERRNO : Z := 4095.
End Errno.
Import Errno.

(** A C pointer, as far as the driver can tell pointers apart: the null
    pointer, an errno smuggled into a pointer by [ERR_PTR], or a pointer
    to a live object. *)
Inductive pointer (A : Type) : Type :=
| NULL
| ERR_PTR (error : Z)
| PTR (obj : A).
Arguments NULL {A}.
Arguments ERR_PTR {A} error.
Arguments PTR {A} obj.

(** [IS_ERR(p)] is [(unsigned long)p >= (unsigned long)-MAX_ERRNO]: true
    exactly for the encodings of [-MAX_ERRNO .. -1].  In particular
    [IS_ERR(NULL)] is false. *)
Definition IS_ERR {A : Type} (p : pointer A) : bool :=
  match p with
  | ERR_PTR e => (- MAX_ERRNO <=? e) && (e <? 0)
  | NULL | PTR _ => false
  end.

Inductive hid_report_type : Type :=
| HID_INPUT_REPORT
| HID_OUTPUT_REPORT
| HID_FEATURE_REPORT.

Inductive hid_class_request : Type :=
| HID_REQ_GET_REPORT
| HID_REQ_SET_REPORT.

Inductive loglevel : Type := KERN_ERR | KERN_INFO.

(** What an observer of the driver can see, in program order. *)
Inductive event : Type :=
| EvLock
| EvUnlock
| EvRawRequest (reportnum : Z) (buf : list Z) (len : nat)
               (rtype : hid_report_type) (reqtype : hid_class_request)
               (ret : Z)
| EvLog (level : loglevel) (fmt : string) (args : list Z).

Inductive fault : Type :=
| BadPointer      (* dereference of NULL or of an ERR_PTR *)
| OutOfBounds.    (* access past the end of a buffer *)

Inductive outcome (A : Type) : Type :=
| Ret (a : A)        (* the call returned [a] *)
| Fault (f : fault)  (* undefined behaviour was reached *)
| Blocked.           (* the caller sleeps on a held mutex *)
Arguments Ret {A} a.
Arguments Fault {A} f.
Arguments Blocked {A}.

(** ** Integer helpers *)

Definition to_u8 (x : Z) : Z := x mod 2 ^ 8.
Definition to_u16 (x : Z) : Z := x mod 2 ^ 16.
Definition to_u32 (x : Z) : Z := x mod 2 ^ 32.

Definition is_u8 (b : Z) : Prop := 0 <= b < 256.

(** ** Buffers *)

(** [blit src dst off] is [dst] with [src] copied over it from index
    [off] on. *)
Definition blit (src dst : list Z) (off : nat) : list Z :=
  firstn off dst ++ src ++ skipn (off + length src) dst.

Definition zeroes (n : nat) : list Z := repeat 0 n.

(** [deposit resp buf len]: a transport stores its response [resp], at
    most [len] bytes of it, at the start of [buf]. *)
Definition deposit (resp buf : list Z) (len : nat) : list Z :=
  blit (firstn len resp) buf 0.

(** ** Session state *)

(** Modelled from the spec: [struct eizo_data] is declared in [eizo.h],
    which is not among the sources.  Its members are the two the code
    uses, [data->lock] and [data->counter], which the specification's
    Device Session lists as the exclusive token and the 16-bit sequence
    counter. *)
Record eizo_data : Type := mk_eizo_data {
  lock : bool;      (* struct mutex: true while held *)
  counter : Z       (* u16 *)
}.

(** ** The driver, over an arbitrary transport *)

Section Driver.

(** The state of the bus and of the monitor behind it. *)
Variable device : Type.

(** [hid_hw_raw_request(hdev, reportnum, buf, len, rtype, reqtype)] as
    the low-level driver implements it: from the device state and the
    request it yields the [int] status, the bytes it stores into [buf]
    (none for a request that only reads [buf]) and the next device
    state. *)
Variable ll_raw_request :
  device -> Z -> list Z -> nat -> hid_report_type -> hid_class_request ->
  Z * list Z * device.

Record hid_device : Type := mk_hid_device {
  driver_data : pointer eizo_data;   (* dev_set_drvdata / dev_get_drvdata *)
  ll_state : device
}.

Record world : Type := mk_world {
  hdev : hid_device;
  kmalloc_avail : nat;               (* bytes the allocator can still hand out *)
  trace : list event
}.

Definition M (A : Type) : Type := world -> outcome A * world.

Definition ret {A : Type} (a : A) : M A := fun w => (Ret a, w).

Definition bind {A B : Type} (c : M A) (k : A -> M B) : M B :=
  fun w =>
    match c w with
    | (Ret a, w') => k a w'
    | (Fault f, w') => (Fault f, w')
    | (Blocked, w') => (Blocked, w')
    end.

Definition raise {A : Type} (f : fault) : M A := fun w => (Fault f, w).

Notation "x <- c ;; k" := (bind c (fun x => k))
  (at level 61, c at next level, right associativity).
Notation "c ;; k" := (bind c (fun _ => k))
  (at level 61, right associativity).

Definition emit (e : event) : M unit :=
  fun w => (Ret tt, mk_world (hdev w) (kmalloc_avail w) (trace w ++ [e])).

Definition set_driver_data (p : pointer eizo_data) (w : world) : world :=
  mk_world (mk_hid_device p (ll_state (hdev w))) (kmalloc_avail w) (trace w).

Definition set_ll_state (d : device) (w : world) : world :=
  mk_world (mk_hid_device (driver_data (hdev w)) d) (kmalloc_avail w) (trace w).

(** *** Kernel services *)

Definition hid_get_drvdata : M (pointer eizo_data) :=
  fun w => (Ret (driver_data (hdev w)), w).

Definition hid_err (fmt : string) (args : list Z) : M unit :=
  emit (EvLog KERN_ERR fmt args).

Definition hid_info (fmt : string) (args : list Z) : M unit :=
  emit (EvLog KERN_INFO fmt args).

(** [kzalloc(size, GFP_KERNEL)]: a zero-filled object of [size] bytes,
    or NULL when the allocator cannot satisfy the request. *)
Definition kzalloc (size : nat) : M (pointer (list Z)) :=
  fun w =>
    if (size <=? kmalloc_avail w)%nat
    then (Ret (PTR (zeroes size)),
          mk_world (hdev w) (kmalloc_avail w - size) (trace w))
    else (Ret NULL, w).

(** [kfree(p)]; [kfree(NULL)] is a no-op. *)
Definition kfree (p : pointer (list Z)) : M unit :=
  fun w =>
    match p with
    | PTR b => (Ret tt, mk_world (hdev w) (kmalloc_avail w + length b) (trace w))
    | NULL => (Ret tt, w)
    | ERR_PTR _ => (Fault BadPointer, w)
    end.

(** Member accesses through the local [data]: [data] aliases the object
    installed as driver data, so they act on that object in the world. *)
Definition mutex_lock_data : M unit :=       (* mutex_lock(&data->lock) *)
  fun w =>
    match driver_data (hdev w) with
    | PTR d =>
        if lock d then (Blocked, w)
        else emit EvLock (set_driver_data (PTR (mk_eizo_data true (counter d))) w)
    | NULL | ERR_PTR _ => (Fault BadPointer, w)
    end.

Definition mutex_unlock_data : M unit :=     (* mutex_unlock(&data->lock) *)
  fun w =>
    match driver_data (hdev w) with
    | PTR d => emit EvUnlock (set_driver_data (PTR (mk_eizo_data false (counter d))) w)
    | NULL | ERR_PTR _ => (Fault BadPointer, w)
    end.

Definition data_counter : M Z :=             (* data->counter *)
  fun w =>
    match driver_data (hdev w) with
    | PTR d => (Ret (counter d), w)
    | NULL | ERR_PTR _ => (Fault BadPointer, w)
    end.

(** [p[i] = v] for a [u8 *p]. *)
Definition store (p : pointer (list Z)) (i : nat) (v : Z) : M (pointer (list Z)) :=
  match p with
  | PTR b =>
      if (i <? length b)%nat then ret (PTR (blit [to_u8 v] b i))
      else raise OutOfBounds
  | NULL | ERR_PTR _ => raise BadPointer
  end.

(** The bytes [p[off .. off+n)]. *)
Definition load_bytes (p : pointer (list Z)) (off n : nat) : M (list Z) :=
  match p with
  | PTR b =>
      if (off + n <=? length b)%nat then ret (firstn n (skipn off b))
      else raise OutOfBounds
  | NULL | ERR_PTR _ => raise BadPointer
  end.

(** [memcpy(&p[off], src, n)]. *)
Definition store_bytes (p : pointer (list Z)) (off : nat) (src : list Z)
  : M (pointer (list Z)) :=
  match p with
  | PTR b =>
      if (off + length src <=? length b)%nat then ret (PTR (blit src b off))
      else raise OutOfBounds
  | NULL | ERR_PTR _ => raise BadPointer
  end.

(** The bus primitive: the low-level driver reads [len] bytes of [buf]
    and may store up to [len] bytes back into it. *)
Definition hid_hw_raw_request (reportnum : Z) (buf : pointer (list Z))
    (len : nat) (rtype : hid_report_type) (reqtype : hid_class_request)
  : M (Z * pointer (list Z)) :=
  match buf with
  | PTR b =>
      if (len <=? length b)%nat then
        fun w =>
          let '(r, resp, d') :=
            ll_raw_request (ll_state (hdev w)) reportnum b len rtype reqtype in
          (emit (EvRawRequest reportnum b len rtype reqtype r) ;;
           ret (r, PTR (deposit resp b len)))
            (set_ll_state d' w)
      else raise OutOfBounds
  | NULL | ERR_PTR _ => raise BadPointer
  end.

(** *** [eizo_set_value] *)

Definition eizo_set_value (usage : Z) (value : list Z) (len : nat) : M Z :=
  data <- hid_get_drvdata ;;
  if IS_ERR data then ret (- ENODATA) else
  report <- kzalloc 39 ;;
  if IS_ERR report then ret (- ENOMEM) else
  mutex_lock_data ;;
  counter <- data_counter ;;
  report <- store report 1 (Z.land (Z.shiftr usage 0) 255) ;;
  report <- store report 2 (Z.land (Z.shiftr usage 8) 255) ;;
  report <- store report 3 (Z.land (Z.shiftr usage 16) 255) ;;
  report <- store report 4 (Z.land (Z.shiftr usage 24) 255) ;;
  report <- store report 5 (Z.land (Z.shiftr counter 0) 255) ;;
  report <- store report 6 (Z.land (Z.shiftr counter 8) 255) ;;
  (* memcpy(&report[7], value, len) *)
  bytes <- load_bytes (PTR value) 0 len ;;
  report <- store_bytes report 7 bytes ;;
  r <- hid_hw_raw_request 2 report 39 HID_FEATURE_REPORT HID_REQ_SET_REPORT ;;
  let '(ret_, report) := r in
  ret_ <- (if ret_ <? 0
           then hid_err "failed to set hid report: %d\n" [ret_] ;; ret ret_
           else ret 0) ;;
  (* exit: *)
  mutex_unlock_data ;;
  kfree report ;;
  ret ret_.

(** *** [eizo_get_value]

    The caller's buffer [value] is passed in and the buffer as the call
    leaves it is returned next to the status. *)

Definition eizo_get_value (usage : Z) (value : list Z) (len : nat)
  : M (Z * list Z) :=
  data <- hid_get_drvdata ;;
  if IS_ERR data
  then hid_err "failed to get eizo_data\n" [] ;; ret (- ENODATA, value)
  else
  report <- kzalloc 39 ;;
  if IS_ERR report
  then hid_err "failed to allocate report buffer" [] ;; ret (- ENOMEM, value)
  else
  mutex_lock_data ;;
  counter <- data_counter ;;
  report <- store report 1 (Z.land (Z.shiftr usage 0) 255) ;;
  report <- store report 2 (Z.land (Z.shiftr usage 8) 255) ;;
  report <- store report 3 (Z.land (Z.shiftr usage 16) 255) ;;
  report <- store report 4 (Z.land (Z.shiftr usage 24) 255) ;;
  report <- store report 5 (Z.land (Z.shiftr counter 0) 255) ;;
  report <- store report 6 (Z.land (Z.shiftr counter 8) 255) ;;
  r <- hid_hw_raw_request 3 report 39 HID_FEATURE_REPORT HID_REQ_SET_REPORT ;;
  let '(ret1, report) := r in
  rv <- (if ret1 <? 0
         then hid_err "failed to set hid report: %d\n" [ret1] ;;
              ret (ret1, value, report)
         else
           r <- hid_hw_raw_request 3 report 39 HID_FEATURE_REPORT HID_REQ_GET_REPORT ;;
           let '(ret2, report) := r in
           if ret2 <? 0
           then hid_err "failed to get hid report: %d\n" [ret2] ;;
                ret (ret2, value, report)
           else
             (* memcpy(value, &report[7], len) *)
             bytes <- load_bytes report 7 len ;;
             out <- store_bytes (PTR value) 0 bytes ;;
             match out with
             | PTR value' => ret (0, value', report)
             | NULL | ERR_PTR _ => raise BadPointer
             end) ;;
  let '(ret_, value, report) := rv in
  (* exit: *)
  mutex_unlock_data ;;
  kfree report ;;
  ret (ret_, value).

(** *** [eizo_data_init], [eizo_data_uninit] *)

Definition eizo_data_init (data : eizo_data) : eizo_data :=
  mk_eizo_data false       (* mutex_init(&data->lock) *)
               1.          (* data->counter = 0x0001 *)

(** *** [eizo_hid_driver_raw_event] *)

(** [data[i]] for the [u8 *data] of an incoming report. *)
Definition load (data : list Z) (i : nat) : M Z :=
  match nth_error data i with
  | Some b => ret b
  | None => raise OutOfBounds
  end.

Definition eizo_hid_driver_raw_event (report_id : Z) (data : list Z) (size : Z)
  : M Z :=
  (if (report_id =? 2) || (report_id =? 3) then
     d0 <- load data 0 ;;
     d1 <- load data 1 ;;
     d2 <- load data 2 ;;
     d3 <- load data 3 ;;
     d4 <- load data 4 ;;
     d5 <- load data 5 ;;
     d6 <- load data 6 ;;
     d7 <- load data 7 ;;
     d8 <- load data 8 ;;
     d9 <- load data 9 ;;
     d10 <- load data 10 ;;
     let id := to_u8 d0 in
     let usage :=
       to_u32 (Z.lor (Z.lor (Z.lor d1 (Z.shiftl d2 8)) (Z.shiftl d3 16))
                     (Z.shiftl d4 24)) in
     let counter := to_u16 (Z.lor d5 (Z.shiftl d6 8)) in
     let value :=
       to_u32 (Z.lor (Z.lor (Z.lor d7 (Z.shiftl d8 8)) (Z.shiftl d9 16))
                     (Z.shiftl d10 24)) in
     hid_info "event %d: %08x %04x %08x\n" [id; usage; counter; value]
   else
     hid_info "event %d\n" [report_id]) ;;
  ret 0.

End Driver.

Arguments mk_hid_device {device} driver_data ll_state.
Arguments mk_world {device} hdev kmalloc_avail trace.
Arguments driver_data {device} h.
Arguments ll_state {device} h.
Arguments hdev {device} w.
Arguments kmalloc_avail {device} w.
Arguments trace {device} w.

(** ** Simulated transports *)

(** The four usage bytes and the payload region of a 39-byte frame. *)
Definition frame_usage (buf : list Z) : Z :=
  nth 1 buf 0 + 2 ^ 8 * nth 2 buf 0 + 2 ^ 16 * nth 3 buf 0 + 2 ^ 24 * nth 4 buf 0.

Definition frame_payload (buf : list Z) : list Z := firstn 32 (skipn 7 buf).

(** A monitor that keeps, per usage, the payload region last written to
    it with report 2, and answers a read of report 3 with the header it
    was armed with followed by the payload region kept for the armed
    usage. *)
Module Echo.

Record state : Type := mk_state {
  settings : Z -> list Z;     (* usage -> payload region *)
  armed : list Z              (* header of the last report-3 request *)
}.

Definition init : state := mk_state (fun _ => zeroes 32) (zeroes 7).

Definition raw_request (s : state) (reportnum : Z) (buf : list Z) (len : nat)
    (rtype : hid_report_type) (reqtype : hid_class_request)
  : Z * list Z * state :=
  match rtype, reqtype with
  | HID_FEATURE_REPORT, HID_REQ_SET_REPORT =>
      if reportnum =? 2 then
        (Z.of_nat len, [],
         mk_state (fun u => if u =? frame_usage buf then frame_payload buf
                            else settings s u)
                  (armed s))
      else if reportnum =? 3 then
        (Z.of_nat len, [], mk_state (settings s) (firstn 7 buf))
      else (- EPIPE, [], s)
  | HID_FEATURE_REPORT, HID_REQ_GET_REPORT =>
      if reportnum =? 3 then
        (Z.of_nat len, armed s ++ settings s (frame_usage (armed s)), s)
      else (- EPIPE, [], s)
  | _, _ => (- EPIPE, [], s)
  end.

End Echo.

(** A transport whose every request fails: the monitor is unplugged. *)
Module Unplugged.

Definition raw_request (s : unit) (reportnum : Z) (buf : list Z) (len : nat)
    (rtype : hid_report_type) (reqtype : hid_class_request)
  : Z * list Z * unit :=
  (- ENODEV, [], s).

End Unplugged.

(** A freshly probed device: [devm_kzalloc]ed, initialised session data
    installed as driver data. *)
Definition probed {device : Type} (d : device) (avail : nat) : world device :=
  mk_world (mk_hid_device (PTR (eizo_data_init (mk_eizo_data false 0))) d) avail [].

(** ** Vocabulary of the specification *)

(** The seven header bytes of a request: byte 0 zero, the usage in bytes
    1-4 and the sequence counter in bytes 5-6, low byte first. *)
Definition frame_header (usage counter : Z) : list Z :=
  [0;
   Z.land (Z.shiftr usage 0) 255;
   Z.land (Z.shiftr usage 8) 255;
   Z.land (Z.shiftr usage 16) 255;
   Z.land (Z.shiftr usage 24) 255;
   Z.land (Z.shiftr counter 0) 255;
   Z.land (Z.shiftr counter 8) 255].

(** The 39-byte request: header, payload from byte 7, zero padding. *)
Definition request_frame (usage counter : Z) (payload : list Z) : list Z :=
  frame_header usage counter ++ payload ++ zeroes (32 - length payload).

(** A little-endian byte string read as a number. *)
Fixpoint le_decode (bytes : list Z) : Z :=
  match bytes with
  | [] => 0
  | b :: rest => b + 2 ^ 8 * le_decode rest
  end.

(** The bytes [data[from .. from+n)]. *)
Definition slice (data : list Z) (from n : nat) : list Z :=
  firstn n (skipn from data).

Definition is_transport_call (e : event) : bool :=
  match e with
  | EvRawRequest _ _ _ _ _ _ => true
  | _ => false
  end.

Definition is_lock_event (e : event) : bool :=
  match e with
  | EvLock | EvUnlock => true
  | _ => false
  end.

Definition transport_calls (tr : list event) : list event :=
  filter is_transport_call tr.

Definition lock_events (tr : list event) : list event :=
  filter is_lock_event tr.

(** Does the session of [w] hold its token? *)
Definition session_locked {device : Type} (w : world device) : bool :=
  match driver_data (hdev w) with
  | PTR d => lock d
  | NULL | ERR_PTR _ => false
  end.

(** A bound session with sequence counter [c] whose token is free, and an
    allocator that can supply the 39-byte frame. *)
Definition ready {device : Type} (w : world device) (c : Z) : Prop :=
  driver_data (hdev w) = PTR (mk_eizo_data false c) /\ (39 <= kmalloc_avail w)%nat.

(** The stored sequence counter of the session of [w], if there is one. *)
Definition session_counter {device : Type} (w : world device) : option Z :=
  match driver_data (hdev w) with
  | PTR d => Some (counter d)
  | NULL | ERR_PTR _ => None
  end.

(** One completed protocol call. *)
Inductive session_step {device : Type}
    (ll : device -> Z -> list Z -> nat -> hid_report_type -> hid_class_request ->
          Z * list Z * device)
  : world device -> world device -> Prop :=
| step_set (usage : Z) (value : list Z) (len : nat) (w w' : world device) (r : Z) :
    eizo_set_value device ll usage value len w = (Ret r, w') ->
    session_step ll w w'
| step_get (usage : Z) (value : list Z) (len : nat) (w w' : world device)
           (r : Z * list Z) :
    eizo_get_value device ll usage value len w = (Ret r, w') ->
    session_step ll w w'.

(** The worlds a session can be in: [eizo_data_init] has run on the
    driver data at probe time, and any number of calls have returned
    since. *)
Inductive reachable {device : Type}
    (ll : device -> Z -> list Z -> nat -> hid_report_type -> hid_class_request ->
          Z * list Z * device)
  : world device -> Prop :=
| reach_init (data0 : eizo_data) (d : device) (avail : nat) (tr : list event) :
    reachable ll (mk_world (mk_hid_device (PTR (eizo_data_init data0)) d) avail tr)
| reach_step (w w' : world device) :
    reachable ll w -> session_step ll w w' -> reachable ll w'.

(** The up-front rejection the specification asks of an oversized call:
    status [-EINVAL], the token never taken, the transport never called. *)
Definition rejected_up_front {device : Type} {A : Type} (status : A -> Z)
    (w : world device) (run : outcome A * world device) : Prop :=
  (exists a, fst run = Ret a /\ status a = - EINVAL) /\
  lock_events (trace (snd run)) = lock_events (trace w) /\
  transport_calls (trace (snd run)) = transport_calls (trace w).

(** Unfolds the monad and the world accessors, leaving arithmetic, lists
    and the transport alone. *)
Ltac run :=
  cbv beta iota zeta delta
    [bind ret raise emit hid_err hid_info mutex_unlock_data mutex_lock_data
     data_counter hid_get_drvdata kfree set_driver_data set_ll_state
     hdev ll_state driver_data kmalloc_avail trace lock counter].

(** Worlds used in the concrete runs below: a freshly probed monitor
    behind the echoing transport, the same with an exhausted allocator,
    and an unplugged one. *)
Definition echo_bench : world Echo.state := probed Echo.init 4096.
Definition echo_bench_no_memory : world Echo.state := probed Echo.init 0.
Definition unplugged_bench : world unit := probed tt 4096.

(** ** Byte order of a [u16] object *)

Definition swab16 (v : Z) : Z :=
  Z.lor (Z.shiftl (Z.land v 255) 8) (Z.land (Z.shiftr v 8) 255).

(** [cpu_to_le16] and [le16_to_cpu]: the identity on a little-endian
    host, a byte swap on a big-endian one. *)
Definition cpu_to_le16 (big_endian : bool) (v : Z) : Z :=
  if big_endian then swab16 v else v.

Definition le16_to_cpu (big_endian : bool) (v : Z) : Z :=
  if big_endian then swab16 v else v.

(** The two bytes of a [u16] object holding [v], in address order, as
    [(u8 * )&value] exposes them. *)
Definition u16_bytes (big_endian : bool) (v : Z) : list Z :=
  if big_endian
  then [Z.land (Z.shiftr v 8) 255; Z.land v 255]
  else [Z.land v 255; Z.land (Z.shiftr v 8) 255].

(** The value of a [u16] object whose two bytes are [bytes]. *)
Definition u16_of_bytes (big_endian : bool) (bytes : list Z) : Z :=
  if big_endian
  then Z.lor (Z.shiftl (nth 0 bytes 0) 8) (nth 1 bytes 0)
  else Z.lor (nth 0 bytes 0) (Z.shiftl (nth 1 bytes 0) 8).

(** [sprintf(buf, "%u\n", value)]: the text written. *)
Definition newline : string := String (Ascii.ascii_of_nat 10) EmptyString.

Definition sprintf_u_nl (value : Z) : string :=
  String.append (NilZero.string_of_uint (N.to_uint (Z.to_N value))) newline.

(** ** The sysfs attribute [settings/brightness] *)

Definition EOVERFLOW : Z := 75.

Section Brightness.

Variable device : Type.
Variable ll_raw_request :
  device -> Z -> list Z -> nat -> hid_report_type -> hid_class_request ->
  Z * list Z * device.

(** The usage code of the brightness setting, a [u32] constant of
    [eizo.h], which is not among the sources. *)
Variable EIZO_USAGE_BRIGHTNESS : Z.

(** [kstrtou16(buf, base, &value)]: the status and, on success, the value
    stored. *)
Variable kstrtou16 : string -> Z -> Z * Z.

(** Byte order of the machine the driver runs on. *)
Variable big_endian : bool.

Notation "x <- c ;; k" := (bind device c (fun x => k))
  (at level 61, c at next level, right associativity).
Notation "c ;; k" := (bind device c (fun _ => k))
  (at level 61, right associativity).

(** [buf] is the text written to the attribute and [count] its length;
    the attribute name (the [%s] of the message) is ["brightness"]. *)
Definition eizo_attr_store_brightness (buf : string) (count : Z) : M device Z :=
  let '(res, parsed) := kstrtou16 buf 10 in
  if res <? 0 then ret device (- EINVAL) else
  let value := to_u16 parsed in
  if (value <? 0) || (value >? 200) then ret device (- EOVERFLOW) else
  let value := cpu_to_le16 big_endian value in
  res <- eizo_set_value device ll_raw_request EIZO_USAGE_BRIGHTNESS
           (u16_bytes big_endian value) 2 ;;
  if res <? 0 then
    hid_err device "failed to set %s value to %d, error %d\n" [value; res] ;;
    ret device res
  else ret device count.

(** [garbage] is whatever the uninitialised local [value] holds on entry;
    the result is the status and the text of [buf] as the call leaves
    it. *)
Definition eizo_attr_show_brightness (garbage : Z) (buf : string)
  : M device (Z * string) :=
  r <- eizo_get_value device ll_raw_request EIZO_USAGE_BRIGHTNESS
         (u16_bytes big_endian (to_u16 garbage)) 2 ;;
  let '(res, bytes) := r in
  if res <? 0 then
    hid_err device "failed to get %s value, error %d\n" [res] ;;
    ret device (- ENODATA, buf)
  else
    let value := le16_to_cpu big_endian (u16_of_bytes big_endian bytes) in
    let text := sprintf_u_nl value in
    ret device (Z.of_nat (String.length text), text).

End Brightness.

(** ** Binding to a device: probe and remove *)

Definition HID_CONNECT_HIDRAW : Z := 4.   (* BIT(2) *)

(** [mutex_destroy] has no effect outside lock debugging. *)
Definition eizo_data_uninit (data : eizo_data) : eizo_data := data.

Section Lifecycle.

Variable device : Type.

(** The HID core and sysfs services the binding code calls, as functions
    of the device state: those that can fail yield their [int] status. *)
Variable core_hid_parse : device -> Z * device.
Variable core_hid_hw_start : device -> Z -> Z * device.
Variable core_hid_hw_stop : device -> device.
Variable core_hid_hw_open : device -> Z * device.
Variable core_hid_hw_close : device -> device.
Variable core_sysfs_create_group : device -> Z * device.
Variable core_sysfs_remove_group : device -> device.

(** [sizeof(struct eizo_data)]. *)
Variable sizeof_eizo_data : nat.

Notation "x <- c ;; k" := (bind device c (fun x => k))
  (at level 61, c at next level, right associativity).
Notation "c ;; k" := (bind device c (fun _ => k))
  (at level 61, right associativity).

Definition core_status (f : device -> Z * device) : M device Z :=
  fun w =>
    let '(r, d') := f (ll_state (hdev w)) in
    (Ret r, set_ll_state device d' w).

Definition core_void (f : device -> device) : M device unit :=
  fun w => (Ret tt, set_ll_state device (f (ll_state (hdev w))) w).

(** [devm_kzalloc(&hdev->dev, sizeof(struct eizo_data), GFP_KERNEL)]: a
    zero-filled session object, or NULL. *)
Definition devm_kzalloc_data : M device (pointer eizo_data) :=
  fun w =>
    if (sizeof_eizo_data <=? kmalloc_avail w)%nat
    then (Ret (PTR (mk_eizo_data false 0)),
          mk_world (hdev w) (kmalloc_avail w - sizeof_eizo_data) (trace w))
    else (Ret NULL, w).

Definition hid_set_drvdata (data : pointer eizo_data) : M device unit :=
  fun w => (Ret tt, set_driver_data device data w).

(** [eizo_data_init(data, hdev)] through the pointer [data], which by now
    is the installed driver data. *)
Definition eizo_data_init_at_drvdata : M device unit :=
  fun w =>
    match driver_data (hdev w) with
    | PTR d => (Ret tt, set_driver_data device (PTR (eizo_data_init d)) w)
    | NULL | ERR_PTR _ => (Fault BadPointer, w)
    end.

(** [eizo_data_uninit(data)] through the pointer [data]; nothing is
    dereferenced. *)
Definition eizo_data_uninit_at_drvdata : M device unit :=
  fun w =>
    match driver_data (hdev w) with
    | PTR d => (Ret tt, set_driver_data device (PTR (eizo_data_uninit d)) w)
    | NULL | ERR_PTR _ => (Ret tt, w)
    end.

Definition eizo_hid_driver_probe : M device Z :=
  data <- devm_kzalloc_data ;;
  if IS_ERR data then
    hid_err device "failed to allocate eizo_data\n" [] ;;
    ret device (- ENOMEM)
  else
  retval <- core_status core_hid_parse ;;
  if retval <? 0 then
    hid_err device "hid_parse failed\n" [] ;;
    ret device retval                                   (* goto exit *)
  else
  retval <- core_status (fun d => core_hid_hw_start d HID_CONNECT_HIDRAW) ;;
  if retval <? 0 then
    hid_err device "hid_hw_start failed\n" [] ;;
    ret device retval                                   (* goto exit *)
  else
  hid_set_drvdata data ;;
  eizo_data_init_at_drvdata ;;
  retval <- core_status core_hid_hw_open ;;
  if retval <? 0 then
    hid_err device "hid_hw_open failed\n" [] ;;
    core_void core_hid_hw_stop ;;                       (* stop: *)
    ret device retval
  else
  retval <- core_status core_sysfs_create_group ;;
  if retval <? 0 then
    hid_err device "sysfs_create_group failed\n" [] ;;
    core_void core_hid_hw_close ;;                      (* close: *)
    core_void core_hid_hw_stop ;;                       (* stop: *)
    ret device retval
  else
  ret device 0.

Definition eizo_hid_driver_remove : M device unit :=
  data <- hid_get_drvdata device ;;
  core_void core_sysfs_remove_group ;;
  core_void core_hid_hw_close ;;
  eizo_data_uninit_at_drvdata ;;
  core_void core_hid_hw_stop.

End Lifecycle.

(** ** Simulated kernel services for the binding code *)

(** A decimal [kstrtou16]: an optional [+], at least one digit, an
    optional final newline, and a value that fits 16 bits. *)
Module Kstrtox.

Definition ERANGE : Z := 34.

Definition digit (c : Ascii.ascii) : option Z :=
  let n := Z.of_nat (Ascii.nat_of_ascii c) in
  if (48 <=? n) && (n <=? 57) then Some (n - 48) else None.

(** The digits at the head of [s]: their value on top of [acc], how many
    there are, and the rest of the string. *)
Fixpoint parse_integer (s : string) (acc : Z) (n : nat) : Z * nat * string :=
  match s with
  | EmptyString => (acc, n, s)
  | String c rest =>
      match digit c with
      | Some d => parse_integer rest (10 * acc + d) (S n)
      | None => (acc, n, s)
      end
  end.

Definition skip_plus (s : string) : string :=
  match s with
  | String c rest => if Ascii.eqb c (Ascii.ascii_of_nat 43) then rest else s
  | EmptyString => s
  end.

Definition kstrtou16 (s : string) (base : Z) : Z * Z :=
  let '(v, n, rest) := parse_integer (skip_plus s) 0 0 in
  match n with
  | O => (- EINVAL, 0)
  | S _ =>
      let rest := match rest with
                  | String c rest' =>
                      if Ascii.eqb c (Ascii.ascii_of_nat 10) then rest' else rest
                  | EmptyString => rest
                  end in
      match rest with
      | EmptyString => if v <? 2 ^ 16 then (0, v) else (- ERANGE, 0)
      | String _ _ => (- EINVAL, 0)
      end
  end.

End Kstrtox.

(** A HID core that answers from a script and keeps the list of the
    services called, oldest first. *)
Module Recorder.

Inductive call : Type :=
| HidParse
| HidHwStart (connect_mask : Z)
| HidHwStop
| HidHwOpen
| HidHwClose
| SysfsCreateGroup
| SysfsRemoveGroup.

Record state : Type := mk_state {
  parse_status : Z;
  start_status : Z;
  open_status : Z;
  create_status : Z;
  calls : list call
}.

Definition record (c : call) (s : state) : state :=
  mk_state (parse_status s) (start_status s) (open_status s) (create_status s)
           (calls s ++ [c]).

Definition hid_parse (s : state) : Z * state :=
  (parse_status s, record HidParse s).
Definition hid_hw_start (s : state) (mask : Z) : Z * state :=
  (start_status s, record (HidHwStart mask) s).
Definition hid_hw_stop (s : state) : state := record HidHwStop s.
Definition hid_hw_open (s : state) : Z * state :=
  (open_status s, record HidHwOpen s).
Definition hid_hw_close (s : state) : state := record HidHwClose s.
Definition sysfs_create_group (s : state) : Z * state :=
  (create_status s, record SysfsCreateGroup s).
Definition sysfs_remove_group (s : state) : state := record SysfsRemoveGroup s.

Definition probe (size : nat) : M state Z :=
  eizo_hid_driver_probe state hid_parse hid_hw_start hid_hw_stop hid_hw_open
    hid_hw_close sysfs_create_group size.

Definition remove : M state unit :=
  eizo_hid_driver_remove state hid_hw_stop hid_hw_close sysfs_remove_group.

(** An unbound device: no driver data yet. *)
Definition unbound (s : state) (avail : nat) : world state :=
  mk_world (mk_hid_device NULL s) avail [].

End Recorder.

(** Further worlds for the concrete runs: the echoing monitor with the
    token held, with an error pointer as driver data, and with no driver
    data. *)
Definition echo_bench_held : world Echo.state :=
  mk_world (mk_hid_device (PTR (mk_eizo_data true 1)) Echo.init) 4096 [].
Definition echo_bench_error : world Echo.state :=
  mk_world (mk_hid_device (ERR_PTR (- ENODEV)) Echo.init) 4096 [].
Definition echo_bench_unbound : world Echo.state :=
  mk_world (mk_hid_device NULL Echo.init) 4096 [].

(** ** Concrete runs *)

Example set_brightness_run :
  eizo_set_value Echo.state Echo.raw_request 1 [170; 187] 2 echo_bench
  = (Ret 0,
     mk_world (mk_hid_device (PTR (mk_eizo_data false 1))
                 (Echo.mk_state
                    (fun u => if u =? 1 then [170; 187] ++ zeroes 30 else zeroes 32)
                    (zeroes 7)))
       4096
       [EvLock;
        EvRawRequest 2 ([0; 1; 0; 0; 0; 1; 0; 170; 187] ++ zeroes 30) 39
          HID_FEATURE_REPORT HID_REQ_SET_REPORT 39;
        EvUnlock]).
Proof. reflexivity. Qed.

Example get_unplugged_run :
  eizo_get_value unit Unplugged.raw_request 1 [7; 7] 2 unplugged_bench
  = (Ret (- ENODEV, [7; 7]),
     mk_world (mk_hid_device (PTR (mk_eizo_data false 1)) tt) 4096
       [EvLock;
        EvRawRequest 3 ([0; 1; 0; 0; 0; 1; 0] ++ zeroes 32) 39
          HID_FEATURE_REPORT HID_REQ_SET_REPORT (- ENODEV);
        EvLog KERN_ERR "failed to set hid report: %d\n" [- ENODEV];
        EvUnlock]).
Proof. reflexivity. Qed.

(** ** Arithmetic and buffer lemmas *)

Lemma to_u8_land (x : Z) : to_u8 (Z.land x 255) = Z.land x 255.
Proof.
  unfold to_u8. change 255 with (Z.ones 8).
  rewrite Z.land_ones by lia. apply Z.mod_mod. lia.
Qed.

Lemma blit_length (src dst : list Z) (off : nat) :
  (off + length src <= length dst)%nat ->
  length (blit src dst off) = length dst.
Proof.
  intros H. unfold blit.
  rewrite !length_app, length_firstn, length_skipn. lia.
Qed.

Lemma zeroes_length (n : nat) : length (zeroes n) = n.
Proof. apply repeat_length. Qed.

Lemma skipn_zeroes (k n : nat) : skipn k (zeroes n) = zeroes (n - k).
Proof.
  revert n. induction k as [|k IH]; intros n.
  - now rewrite Nat.sub_0_r.
  - destruct n as [|n]; simpl; [reflexivity|]. apply IH.
Qed.

Lemma request_frame_length (usage c : Z) (payload : list Z) :
  (length payload <= 32)%nat -> length (request_frame usage c payload) = 39%nat.
Proof.
  intros H. unfold request_frame, frame_header.
  rewrite !length_app, zeroes_length. cbn [length]. lia.
Qed.


Lemma land_low_shiftl (x y n : Z) :
  0 <= n -> 0 <= x < 2 ^ n -> Z.land x (Z.shiftl y n) = 0.
Proof.
  intros Hn Hx. apply Z.bits_inj'. intros i Hi.
  rewrite Z.land_spec, Z.bits_0.
  destruct (Z.lt_ge_cases i n) as [Hlt|Hge].
  - rewrite (Z.shiftl_spec_low y n i Hlt). apply andb_false_r.
  - replace (Z.testbit x i) with false; [reflexivity|].
    symmetry. apply Z.testbit_false; [lia|].
    rewrite Z.div_small; [reflexivity|].
    split; [lia|]. apply Z.lt_le_trans with (2 ^ n); [lia|].
    apply Z.pow_le_mono_r; lia.
Qed.

Lemma lor_shiftl_add (x y n : Z) :
  0 <= n -> 0 <= x < 2 ^ n -> Z.lor x (Z.shiftl y n) = x + 2 ^ n * y.
Proof.
  intros Hn Hx.
  rewrite <- Z.lxor_lor by (apply land_low_shiftl; assumption).
  rewrite <- Z.add_nocarry_lxor by (apply land_low_shiftl; assumption).
  rewrite Z.shiftl_mul_pow2 by lia. lia.
Qed.

Lemma le32_decode (a b c d : Z) :
  is_u8 a -> is_u8 b -> is_u8 c -> is_u8 d ->
  to_u32 (Z.lor (Z.lor (Z.lor a (Z.shiftl b 8)) (Z.shiftl c 16)) (Z.shiftl d 24))
  = le_decode [a; b; c; d].
Proof.
  unfold is_u8, to_u32, le_decode. intros Ha Hb Hc Hd.
  rewrite (lor_shiftl_add a b 8) by lia.
  rewrite (lor_shiftl_add _ c 16) by lia.
  rewrite (lor_shiftl_add _ d 24) by lia.
  rewrite Z.mod_small by lia. lia.
Qed.

Lemma le16_decode (a b : Z) :
  is_u8 a -> is_u8 b ->
  to_u16 (Z.lor a (Z.shiftl b 8)) = le_decode [a; b].
Proof.
  unfold is_u8, to_u16, le_decode. intros Ha Hb.
  rewrite (lor_shiftl_add a b 8) by lia.
  rewrite Z.mod_small by lia. lia.
Qed.

Lemma frame_usage_header (u c : Z) (rest : list Z) :
  0 <= u < 2 ^ 32 -> frame_usage (frame_header u c ++ rest) = u.
Proof.
  intros Hu. unfold frame_usage, frame_header. cbn [app nth].
  change 255 with (Z.ones 8).
  rewrite !Z.land_ones by lia.
  rewrite !Z.shiftr_div_pow2 by lia.
  change (2^0) with 1. change (2^8) with 256. change (2^16) with 65536. change (2^24) with 16777216.
  change (2^32) with 4294967296 in Hu.
  Z.div_mod_to_equations. lia.
Qed.

Lemma blit_request_frame (usage c : Z) (payload : list Z) :
  blit payload (frame_header usage c ++ zeroes 32) 7 =
  request_frame usage c payload.
Proof.
  unfold blit, request_frame, frame_header.
  cbn [app firstn skipn Nat.add]. now rewrite skipn_zeroes.
Qed.

Lemma deposit_length (resp frame : list Z) (len : nat) :
  (len <= length frame)%nat ->
  length (deposit resp frame len) = length frame.
Proof.
  intros H. apply blit_length. rewrite length_firstn. lia.
Qed.

Section DriverProperties.

Variable device : Type.
Variable ll_raw_request :
  device -> Z -> list Z -> nat -> hid_report_type -> hid_class_request ->
  Z * list Z * device.

Abbreviation set_value := (eizo_set_value device ll_raw_request).
Abbreviation get_value := (eizo_get_value device ll_raw_request).
Abbreviation world := (world device).

Lemma set_value_exec (w : world) (c usage : Z) (value : list Z) (len : nat) :
  ready w c -> (len <= 32)%nat -> (len <= length value)%nat ->
  set_value usage value len w =
  let frame := request_frame usage c (firstn len value) in
  let '(r, _, d') :=
    ll_raw_request (ll_state (hdev w)) 2 frame 39
      HID_FEATURE_REPORT HID_REQ_SET_REPORT in
  (Ret (if r <? 0 then r else 0),
   mk_world (mk_hid_device (PTR (mk_eizo_data false c)) d') (kmalloc_avail w)
     (trace w ++
      [EvLock;
       EvRawRequest 2 frame 39 HID_FEATURE_REPORT HID_REQ_SET_REPORT r] ++
      (if r <? 0
       then [EvLog KERN_ERR "failed to set hid report: %d\n" [r]]
       else []) ++
      [EvUnlock])).
Proof.
  intros [Hd Ha] Hlen Hval.
  destruct w as [[dd dev] avail tr]; simpl in Hd, Ha; subst dd.
  unfold eizo_set_value, bind, hid_get_drvdata, kzalloc, mutex_lock_data,
    data_counter.
  cbn [hdev driver_data IS_ERR kmalloc_avail trace ll_state lock counter].
  apply Nat.leb_le in Ha as Ha'. rewrite Ha'.
  cbn [IS_ERR emit set_driver_data hdev driver_data kmalloc_avail trace
       ll_state lock counter].
  unfold store, ret, raise.
  cbn [zeroes repeat length Nat.ltb Nat.leb blit firstn skipn app Nat.add].
  rewrite !to_u8_land.
  unfold load_bytes, ret.
  cbn [Nat.add skipn].
  apply Nat.leb_le in Hval as Hval'. rewrite Hval'.
  unfold store_bytes, ret.
  cbn [length]. rewrite length_firstn, (Nat.min_l _ _ Hval).
  assert (H7 : (7 + len <=? 39)%nat = true) by (apply Nat.leb_le; lia).
  rewrite H7.
  match goal with
  | |- context [blit (firstn len value) ?F 7] =>
      change F with (frame_header usage c ++ zeroes 32)
  end.
  rewrite blit_request_frame.
  assert (HF : length (request_frame usage c (firstn len value)) = 39%nat)
    by (apply request_frame_length; rewrite length_firstn; lia).
  unfold hid_hw_raw_request. rewrite HF.
  cbn [Nat.leb set_ll_state hdev ll_state driver_data kmalloc_avail trace].
  destruct (ll_raw_request dev 2 (request_frame usage c (firstn len value)) 39
              HID_FEATURE_REPORT HID_REQ_SET_REPORT) as [[r resp] d'].
  unfold bind, emit, ret, hid_err, mutex_unlock_data, kfree, set_driver_data,
    set_ll_state.
  destruct (r <? 0);
    cbn [emit hdev ll_state driver_data kmalloc_avail trace lock counter];
    rewrite deposit_length, HF by lia;
    replace (avail - 39 + 39)%nat with avail by lia;
    rewrite <- ?app_assoc; reflexivity.
Qed.

(** Past the 32-byte payload region (or past the caller's own buffer)
    the copy into the frame leaves the object: the token is held, the
    transport has not been called. *)
Lemma set_value_overrun (w : world) (c usage : Z) (value : list Z) (len : nat) :
  ready w c -> (32 < len)%nat \/ (length value < len)%nat ->
  set_value usage value len w =
  (Fault OutOfBounds,
   mk_world (mk_hid_device (PTR (mk_eizo_data true c)) (ll_state (hdev w)))
     (kmalloc_avail w - 39) (trace w ++ [EvLock])).
Proof.
  intros [Hd Ha] Hlen.
  destruct w as [[dd dev] avail tr]; simpl in Hd, Ha; subst dd.
  unfold eizo_set_value, bind, hid_get_drvdata, kzalloc, mutex_lock_data,
    data_counter.
  cbn [hdev driver_data IS_ERR kmalloc_avail trace ll_state lock counter].
  apply Nat.leb_le in Ha as Ha'. rewrite Ha'.
  cbn [IS_ERR emit set_driver_data hdev driver_data kmalloc_avail trace
       ll_state lock counter].
  unfold store, ret, raise.
  cbn [zeroes repeat length Nat.ltb Nat.leb blit firstn skipn app Nat.add].
  unfold load_bytes, ret, raise.
  cbn [Nat.add skipn].
  destruct (len <=? length value)%nat eqn:Hval.
  - apply Nat.leb_le in Hval.
    unfold store_bytes, raise.
    cbn [length]. rewrite length_firstn, (Nat.min_l _ _ Hval).
    assert (H7 : (7 + len <=? 39)%nat = false) by (apply Nat.leb_gt; lia).
    now rewrite H7.
  - reflexivity.
Qed.

Lemma get_value_exec (w : world) (c usage : Z) (value : list Z) (len : nat) :
  ready w c ->
  get_value usage value len w =
  let frame := request_frame usage c [] in
  let '(r1, resp1, d1) :=
    ll_raw_request (ll_state (hdev w)) 3 frame 39
      HID_FEATURE_REPORT HID_REQ_SET_REPORT in
  let arm := EvRawRequest 3 frame 39 HID_FEATURE_REPORT HID_REQ_SET_REPORT r1 in
  let frame1 := deposit resp1 frame 39 in
  if r1 <? 0 then
    (Ret (r1, value),
     mk_world (mk_hid_device (PTR (mk_eizo_data false c)) d1) (kmalloc_avail w)
       (trace w ++
        [EvLock; arm;
         EvLog KERN_ERR "failed to set hid report: %d\n" [r1];
         EvUnlock]))
  else
    let '(r2, resp2, d2) :=
      ll_raw_request d1 3 frame1 39 HID_FEATURE_REPORT HID_REQ_GET_REPORT in
    let fetch :=
      EvRawRequest 3 frame1 39 HID_FEATURE_REPORT HID_REQ_GET_REPORT r2 in
    let frame2 := deposit resp2 frame1 39 in
    if r2 <? 0 then
      (Ret (r2, value),
       mk_world (mk_hid_device (PTR (mk_eizo_data false c)) d2) (kmalloc_avail w)
         (trace w ++
          [EvLock; arm; fetch;
           EvLog KERN_ERR "failed to get hid report: %d\n" [r2];
           EvUnlock]))
    else if ((len <=? 32) && (len <=? length value))%nat then
      (Ret (0, blit (firstn len (skipn 7 frame2)) value 0),
       mk_world (mk_hid_device (PTR (mk_eizo_data false c)) d2) (kmalloc_avail w)
         (trace w ++ [EvLock; arm; fetch; EvUnlock]))
    else
      (Fault OutOfBounds,
       mk_world (mk_hid_device (PTR (mk_eizo_data true c)) d2)
         (kmalloc_avail w - 39) (trace w ++ [EvLock; arm; fetch])).
Proof.
  intros [Hd Ha].
  destruct w as [[dd dev] avail tr]; simpl in Hd, Ha; subst dd.
  unfold eizo_get_value, bind, hid_get_drvdata, kzalloc, mutex_lock_data,
    data_counter.
  cbn [hdev driver_data IS_ERR kmalloc_avail trace ll_state lock counter].
  apply Nat.leb_le in Ha as Ha'. rewrite Ha'.
  cbn [IS_ERR emit set_driver_data hdev driver_data kmalloc_avail trace
       ll_state lock counter].
  unfold store, ret, raise.
  cbn [zeroes repeat length Nat.ltb Nat.leb blit firstn skipn app Nat.add].
  rewrite !to_u8_land.
  match goal with
  | |- context [hid_hw_raw_request _ _ 3 (PTR ?F)] =>
      change F with (request_frame usage c [])
  end.
  set (frame := request_frame usage c []).
  assert (HF : length frame = 39%nat) by (apply request_frame_length; simpl; lia).
  unfold hid_hw_raw_request at 1. rewrite HF.
  cbn [Nat.leb set_ll_state hdev ll_state driver_data kmalloc_avail trace].
  destruct (ll_raw_request dev 3 frame 39 HID_FEATURE_REPORT HID_REQ_SET_REPORT)
    as [[r1 resp1] d1].
  cbv zeta.
  set (frame1 := deposit resp1 frame 39).
  assert (HF1 : length frame1 = 39%nat)
    by (unfold frame1; rewrite deposit_length; lia).
  unfold bind at 1. unfold emit at 1.
  unfold set_ll_state, ret.
  cbn [hdev ll_state driver_data kmalloc_avail trace].
  destruct (r1 <? 0).
  { run. rewrite HF1. replace (avail - 39 + 39)%nat with avail by lia.
    rewrite <- !app_assoc. reflexivity. }
  unfold hid_hw_raw_request. rewrite HF1.
  cbn [Nat.leb]. run.
  destruct (ll_raw_request d1 3 frame1 39 HID_FEATURE_REPORT HID_REQ_GET_REPORT)
    as [[r2 resp2] d2].
  set (frame2 := deposit resp2 frame1 39).
  assert (HF2 : length frame2 = 39%nat)
    by (unfold frame2; rewrite deposit_length; lia).
  destruct (r2 <? 0).
  { run. rewrite HF2. replace (avail - 39 + 39)%nat with avail by lia.
    rewrite <- !app_assoc. reflexivity. }
  unfold load_bytes. rewrite HF2.
  change (7 + len <=? 39)%nat with (len <=? 32)%nat.
  destruct (len <=? 32)%nat eqn:H32; cbn [andb]; run;
    [|rewrite <- !app_assoc; reflexivity].
  apply Nat.leb_le in H32.
  unfold store_bytes.
  assert (HL : length (firstn len (skipn 7 frame2)) = len)
    by (rewrite length_firstn, length_skipn, HF2; lia).
  rewrite HL. cbn [Nat.add].
  destruct (len <=? length value)%nat; run;
    [|rewrite <- !app_assoc; reflexivity].
  rewrite HF2. replace (avail - 39 + 39)%nat with avail by lia.
  rewrite <- !app_assoc. reflexivity.
Qed.

(** When the frame cannot be allocated, [kzalloc] yields NULL, which
    [IS_ERR] does not recognise: the token is taken and the first store
    into the frame goes through the null pointer. *)
Lemma set_value_no_memory (w : world) (c usage : Z) (value : list Z) (len : nat) :
  driver_data (hdev w) = PTR (mk_eizo_data false c) ->
  (kmalloc_avail w < 39)%nat ->
  set_value usage value len w =
  (Fault BadPointer,
   mk_world (mk_hid_device (PTR (mk_eizo_data true c)) (ll_state (hdev w)))
     (kmalloc_avail w) (trace w ++ [EvLock])).
Proof.
  intros Hd Ha.
  destruct w as [[dd dev] avail tr]; simpl in Hd, Ha; subst dd.
  unfold eizo_set_value, kzalloc. run. cbn [IS_ERR].
  apply Nat.leb_gt in Ha. rewrite Ha. reflexivity.
Qed.

Lemma get_value_no_memory (w : world) (c usage : Z) (value : list Z) (len : nat) :
  driver_data (hdev w) = PTR (mk_eizo_data false c) ->
  (kmalloc_avail w < 39)%nat ->
  get_value usage value len w =
  (Fault BadPointer,
   mk_world (mk_hid_device (PTR (mk_eizo_data true c)) (ll_state (hdev w)))
     (kmalloc_avail w) (trace w ++ [EvLock])).
Proof.
  intros Hd Ha.
  destruct w as [[dd dev] avail tr]; simpl in Hd, Ha; subst dd.
  unfold eizo_get_value, kzalloc. run. cbn [IS_ERR].
  apply Nat.leb_gt in Ha. rewrite Ha. reflexivity.
Qed.

(** Outside the [ready] worlds a call either reports the missing session
    or does not return. *)
Lemma set_value_unready (w : world) (usage : Z) (value : list Z) (len : nat) :
  (forall c, ~ ready w c) ->
  (IS_ERR (driver_data (hdev w)) = true /\
   set_value usage value len w = (Ret (- ENODATA), w)) \/
  (exists f w', set_value usage value len w = (Fault f, w')) \/
  (exists w', set_value usage value len w = (Blocked, w')).
Proof.
  intros Hnr.
  destruct (driver_data (hdev w)) as [|e|[[|] c]] eqn:Hd.
  - right; left.
    destruct w as [[dd dev] avail tr]; simpl in Hd; subst dd.
    unfold eizo_set_value, kzalloc. run. cbn [IS_ERR].
    destruct (39 <=? avail)%nat; cbn [IS_ERR]; eauto.
  - destruct (IS_ERR (@ERR_PTR eizo_data e)) eqn:He.
    + left. split; [reflexivity|].
      destruct w as [[dd dev] avail tr]; simpl in Hd; subst dd.
      unfold eizo_set_value. run. now rewrite He.
    + right; left.
      destruct w as [[dd dev] avail tr]; simpl in Hd; subst dd.
      unfold eizo_set_value, kzalloc. run. rewrite He.
      destruct (39 <=? avail)%nat; cbn [IS_ERR]; eauto.
  - right; right.
    destruct w as [[dd dev] avail tr]; simpl in Hd; subst dd.
    unfold eizo_set_value, kzalloc. run. cbn [IS_ERR].
    destruct (39 <=? avail)%nat; cbn [IS_ERR]; eauto.
  - right; left.
    destruct (le_lt_dec 39 (kmalloc_avail w)) as [Ha|Ha].
    + exfalso. apply (Hnr c). now split.
    + rewrite (set_value_no_memory w c) by assumption. eauto.
Qed.

Lemma get_value_unready (w : world) (usage : Z) (value : list Z) (len : nat) :
  (forall c, ~ ready w c) ->
  (IS_ERR (driver_data (hdev w)) = true /\
   get_value usage value len w =
   (Ret (- ENODATA, value),
    mk_world (hdev w) (kmalloc_avail w)
      (trace w ++ [EvLog KERN_ERR "failed to get eizo_data\n" []]))) \/
  (exists f w', get_value usage value len w = (Fault f, w')) \/
  (exists w', get_value usage value len w = (Blocked, w')).
Proof.
  intros Hnr.
  destruct (driver_data (hdev w)) as [|e|[[|] c]] eqn:Hd.
  - right; left.
    destruct w as [[dd dev] avail tr]; simpl in Hd; subst dd.
    unfold eizo_get_value, kzalloc. run. cbn [IS_ERR].
    destruct (39 <=? avail)%nat; cbn [IS_ERR]; eauto.
  - destruct (IS_ERR (@ERR_PTR eizo_data e)) eqn:He.
    + left. split; [reflexivity|].
      destruct w as [[dd dev] avail tr]; simpl in Hd; subst dd.
      unfold eizo_get_value. run. now rewrite He.
    + right; left.
      destruct w as [[dd dev] avail tr]; simpl in Hd; subst dd.
      unfold eizo_get_value, kzalloc. run. rewrite He.
      destruct (39 <=? avail)%nat; cbn [IS_ERR]; eauto.
  - right; right.
    destruct w as [[dd dev] avail tr]; simpl in Hd; subst dd.
    unfold eizo_get_value, kzalloc. run. cbn [IS_ERR].
    destruct (39 <=? avail)%nat; cbn [IS_ERR]; eauto.
  - right; left.
    destruct (le_lt_dec 39 (kmalloc_avail w)) as [Ha|Ha].
    + exfalso. apply (Hnr c). now split.
    + rewrite (get_value_no_memory w c) by assumption. eauto.
Qed.

Lemma ready_dec (w : world) : (exists c, ready w c) \/ (forall c, ~ ready w c).
Proof.
  destruct (driver_data (hdev w)) as [| |[[|] c]] eqn:Hd;
    try (right; intros c' [H _]; congruence).
  destruct (le_lt_dec 39 (kmalloc_avail w)) as [Ha|Ha].
  - left. exists c. now split.
  - right. intros c' [_ H]. lia.
Qed.

Lemma ready_after (w : world) (c : Z) (d : device) (tr : list event) :
  ready w c ->
  ready (mk_world (mk_hid_device (PTR (mk_eizo_data false c)) d)
           (kmalloc_avail w) tr) c.
Proof. intros [_ Ha]. split; [reflexivity|exact Ha]. Qed.

Lemma app_cons_neq {A : Type} (l l' : list A) (x : A) : l ++ x :: l' <> l.
Proof.
  intros H. apply (f_equal (@length A)) in H.
  rewrite length_app in H. simpl in H. lia.
Qed.

(** C2: with usage 0x00000001, payload AA BB and sequence counter 1, set
    hands the transport exactly the 39 bytes
    00 01 00 00 00 01 00 AA BB 00 ... 00, in its only transport call. *)
Theorem set_frame_bit_exact (w : world) :
  ready w 1 ->
  exists r,
    transport_calls (trace (snd (set_value 1 [170; 187] 2 w))) =
      transport_calls (trace w) ++
      [EvRawRequest 2
         [0; 1; 0; 0; 0; 1; 0; 170; 187;
          0; 0; 0; 0; 0; 0; 0; 0; 0; 0; 0; 0; 0; 0; 0;
          0; 0; 0; 0; 0; 0; 0; 0; 0; 0; 0; 0; 0; 0; 0]
         39 HID_FEATURE_REPORT HID_REQ_SET_REPORT r].
Proof.
  intros Hr.
  rewrite (set_value_exec w 1 1 [170; 187] 2 Hr) by (simpl; lia).
  cbv zeta.
  destruct (ll_raw_request (ll_state (hdev w)) 2
              (request_frame 1 1 (firstn 2 [170; 187])) 39
              HID_FEATURE_REPORT HID_REQ_SET_REPORT) as [[r resp] d'].
  exists r. cbn [snd trace]. unfold transport_calls.
  rewrite filter_app. f_equal.
  destruct (r <? 0); reflexivity.
Qed.

(** C4: when the arm call of a read (set-feature, report 3) fails, the
    fetch is not issued, the token is released, get returns the status
    of the arm call, and the session is ready for the next call. *)
Theorem arm_failure_skips_fetch
    (w : world) (c usage : Z) (value : list Z) (len : nat)
    (r1 : Z) (resp1 : list Z) (d1 : device) :
  ready w c ->
  ll_raw_request (ll_state (hdev w)) 3 (request_frame usage c []) 39
    HID_FEATURE_REPORT HID_REQ_SET_REPORT = (r1, resp1, d1) ->
  r1 < 0 ->
  exists w',
    get_value usage value len w = (Ret (r1, value), w') /\
    trace w' =
      trace w ++
      [EvLock;
       EvRawRequest 3 (request_frame usage c []) 39
         HID_FEATURE_REPORT HID_REQ_SET_REPORT r1;
       EvLog KERN_ERR "failed to set hid report: %d\n" [r1];
       EvUnlock] /\
    session_locked w' = false /\
    ready w' c.
Proof.
  intros Hr Harm Hneg.
  rewrite (get_value_exec w c usage value len Hr). cbv zeta.
  rewrite Harm. apply Z.ltb_lt in Hneg. rewrite Hneg.
  eexists. split; [reflexivity|]. split; [reflexivity|].
  split; [reflexivity|]. now apply ready_after.
Qed.

(** C6: on a valid input set issues exactly one transport call, a
    set-feature request for report 2 carrying the 39-byte frame; it
    returns the status of that call when it is negative and 0
    otherwise. *)
Theorem set_single_transport_call
    (w : world) (c usage : Z) (value : list Z) (len : nat) :
  ready w c -> (len <= 32)%nat -> (len <= length value)%nat ->
  exists r resp d' w',
    ll_raw_request (ll_state (hdev w)) 2
      (request_frame usage c (firstn len value)) 39
      HID_FEATURE_REPORT HID_REQ_SET_REPORT = (r, resp, d') /\
    set_value usage value len w = (Ret (if r <? 0 then r else 0), w') /\
    transport_calls (trace w') =
      transport_calls (trace w) ++
      [EvRawRequest 2 (request_frame usage c (firstn len value)) 39
         HID_FEATURE_REPORT HID_REQ_SET_REPORT r] /\
    length (request_frame usage c (firstn len value)) = 39%nat.
Proof.
  intros Hr Hlen Hval.
  rewrite (set_value_exec w c usage value len Hr Hlen Hval). cbv zeta.
  destruct (ll_raw_request (ll_state (hdev w)) 2
              (request_frame usage c (firstn len value)) 39
              HID_FEATURE_REPORT HID_REQ_SET_REPORT) as [[r resp] d'].
  exists r, resp, d'. eexists. split; [reflexivity|]. split; [reflexivity|].
  split.
  - cbn [trace]. unfold transport_calls. rewrite filter_app. f_equal.
    destruct (r <? 0); reflexivity.
  - apply request_frame_length. rewrite length_firstn. lia.
Qed.

Lemma ready_counter (w : world) (c c' : Z) : ready w c -> ready w c' -> c = c'.
Proof. intros [H _] [H' _]. congruence. Qed.

Lemma is_err_unlocked (w : world) :
  IS_ERR (driver_data (hdev w)) = true -> session_locked w = false.
Proof.
  unfold session_locked. destruct (driver_data (hdev w)); simpl; congruence.
Qed.

(** The worlds from which [set] returns, and what it leaves. *)
Lemma set_value_returns
    (w w' : world) (usage : Z) (value : list Z) (len : nat) (r : Z) :
  set_value usage value len w = (Ret r, w') ->
  (IS_ERR (driver_data (hdev w)) = true /\ r = - ENODATA /\ w' = w) \/
  (exists c r0 d',
      ready w c /\
      r = (if r0 <? 0 then r0 else 0) /\
      w' = mk_world (mk_hid_device (PTR (mk_eizo_data false c)) d')
             (kmalloc_avail w)
             (trace w ++
              [EvLock;
               EvRawRequest 2 (request_frame usage c (firstn len value)) 39
                 HID_FEATURE_REPORT HID_REQ_SET_REPORT r0] ++
              (if r0 <? 0
               then [EvLog KERN_ERR "failed to set hid report: %d\n" [r0]]
               else []) ++
              [EvUnlock])).
Proof.
  intros Hrun.
  destruct (ready_dec w) as [[c Hr]|Hnr].
  - right.
    destruct (le_lt_dec len 32) as [Hlen|Hlen];
      [destruct (le_lt_dec len (length value)) as [Hval|Hval]|].
    + rewrite (set_value_exec w c usage value len Hr Hlen Hval) in Hrun.
      cbv zeta in Hrun.
      destruct (ll_raw_request (ll_state (hdev w)) 2
                  (request_frame usage c (firstn len value)) 39
                  HID_FEATURE_REPORT HID_REQ_SET_REPORT) as [[r0 resp] d'].
      injection Hrun as <- <-. exists c, r0, d'. auto.
    + rewrite (set_value_overrun w c usage value len Hr (or_intror Hval)) in Hrun.
      discriminate.
    + rewrite (set_value_overrun w c usage value len Hr (or_introl Hlen)) in Hrun.
      discriminate.
  - destruct (set_value_unready w usage value len Hnr)
      as [[He Hrun']|[(f & w1 & Hrun')|(w1 & Hrun')]];
      rewrite Hrun' in Hrun; try discriminate.
    injection Hrun as <- <-. left. auto.
Qed.

(** C5: set and get never return holding the token.  Whenever either
    returns, with a result or an error, the session's token is free, the
    call has either not touched the token or taken and released it
    exactly once, and a session that was ready before the call is ready
    for the next one. *)
Theorem token_released_on_return
    (w : world) (usage : Z) (value : list Z) (len : nat) :
  (forall r w',
      set_value usage value len w = (Ret r, w') ->
      session_locked w' = false /\
      (exists added,
          trace w' = trace w ++ added /\
          (lock_events added = [] \/ lock_events added = [EvLock; EvUnlock])) /\
      (forall c, ready w c -> ready w' c)) /\
  (forall r w',
      get_value usage value len w = (Ret r, w') ->
      session_locked w' = false /\
      (exists added,
          trace w' = trace w ++ added /\
          (lock_events added = [] \/ lock_events added = [EvLock; EvUnlock])) /\
      (forall c, ready w c -> ready w' c)).
Proof.
  split; intros r w' Hrun.
  - destruct (set_value_returns _ _ _ _ _ _ Hrun)
      as [(He & _ & ->)|(c & r0 & d' & Hr & _ & ->)].
    + split; [now apply is_err_unlocked|]. split; [|auto].
      exists []. rewrite app_nil_r. auto.
    + split; [reflexivity|]. split.
      * eexists. split; [reflexivity|]. right.
        destruct (r0 <? 0); reflexivity.
      * intros c' Hr'. rewrite <- (ready_counter w c c' Hr Hr').
        now apply ready_after.
  - destruct (ready_dec w) as [[c Hr]|Hnr].
    + rewrite (get_value_exec w c usage value len Hr) in Hrun.
      cbv zeta in Hrun.
      destruct (ll_raw_request (ll_state (hdev w)) 3 (request_frame usage c [])
                  39 HID_FEATURE_REPORT HID_REQ_SET_REPORT) as [[r1 resp1] d1].
      assert (Hc : forall (d : device) (tr : list event) (c' : Z),
                 ready w c' ->
                 ready (mk_world (mk_hid_device (PTR (mk_eizo_data false c)) d)
                          (kmalloc_avail w) tr) c').
      { intros d tr c' Hr'. rewrite <- (ready_counter w c c' Hr Hr').
        now apply ready_after. }
      destruct (r1 <? 0).
      { injection Hrun as <- <-. split; [reflexivity|]. split; [|apply Hc].
        eexists. split; [reflexivity|]. now right. }
      destruct (ll_raw_request d1 3 (deposit resp1 (request_frame usage c []) 39)
                  39 HID_FEATURE_REPORT HID_REQ_GET_REPORT) as [[r2 resp2] d2].
      destruct (r2 <? 0).
      { injection Hrun as <- <-. split; [reflexivity|]. split; [|apply Hc].
        eexists. split; [reflexivity|]. now right. }
      destruct ((len <=? 32)%nat && (len <=? length value)%nat);
        [|discriminate].
      injection Hrun as <- <-. split; [reflexivity|]. split; [|apply Hc].
      eexists. split; [reflexivity|]. now right.
    + destruct (get_value_unready w usage value len Hnr)
        as [[He Hrun']|[(f & w1 & Hrun')|(w1 & Hrun')]];
        rewrite Hrun' in Hrun; try discriminate.
      injection Hrun as <- <-.
      split; [now apply is_err_unlocked|]. split.
      * eexists. split; [reflexivity|]. now left.
      * intros c [Hd _]. cbn [hdev] in He. rewrite Hd in He. discriminate.
Qed.

(** A completed call leaves the stored sequence counter as it found it. *)
Lemma session_step_counter (w w' : world) :
  session_step ll_raw_request w w' -> session_counter w' = session_counter w.
Proof.
  intros [usage value len w0 w0' r Hrun|usage value len w0 w0' r Hrun].
  - destruct (set_value_returns _ _ _ _ _ _ Hrun)
      as [(_ & _ & ->)|(c & r0 & d' & [Hd _] & _ & ->)]; [reflexivity|].
    unfold session_counter. cbn [hdev driver_data]. now rewrite Hd.
  - destruct (ready_dec w0) as [[c Hr]|Hnr].
    + rewrite (get_value_exec w0 c usage value len Hr) in Hrun.
      cbv zeta in Hrun. destruct Hr as [Hd _].
      unfold session_counter at 2. rewrite Hd. cbn [counter].
      destruct (ll_raw_request (ll_state (hdev w0)) 3 (request_frame usage c [])
                  39 HID_FEATURE_REPORT HID_REQ_SET_REPORT) as [[r1 resp1] d1].
      destruct (r1 <? 0); [injection Hrun as <- <-; reflexivity|].
      destruct (ll_raw_request d1 3 (deposit resp1 (request_frame usage c []) 39)
                  39 HID_FEATURE_REPORT HID_REQ_GET_REPORT) as [[r2 resp2] d2].
      destruct (r2 <? 0); [injection Hrun as <- <-; reflexivity|].
      destruct ((len <=? 32)%nat && (len <=? length value)%nat);
        [|discriminate].
      injection Hrun as <- <-; reflexivity.
    + destruct (get_value_unready w0 usage value len Hnr)
        as [[He Hrun']|[(f & w1 & Hrun')|(w1 & Hrun')]];
        rewrite Hrun' in Hrun; try discriminate.
      injection Hrun as <- <-. reflexivity.
Qed.

(** C10: a get that returns an error leaves the caller's buffer as it
    was; the buffer is written only in a run whose arm and fetch calls
    both succeeded. *)
Theorem get_error_leaves_output
    (w w' : world) (usage : Z) (value value' : list Z) (len : nat) (r : Z) :
  get_value usage value len w = (Ret (r, value'), w') ->
  (r <> 0 -> value' = value) /\
  (value' <> value ->
   exists frame r1 frame1 r2,
     0 <= r1 /\ 0 <= r2 /\
     trace w' =
       trace w ++
       [EvLock;
        EvRawRequest 3 frame 39 HID_FEATURE_REPORT HID_REQ_SET_REPORT r1;
        EvRawRequest 3 frame1 39 HID_FEATURE_REPORT HID_REQ_GET_REPORT r2;
        EvUnlock]).
Proof.
  intros Hrun.
  destruct (ready_dec w) as [[c Hr]|Hnr].
  - rewrite (get_value_exec w c usage value len Hr) in Hrun.
    cbv zeta in Hrun.
    destruct (ll_raw_request (ll_state (hdev w)) 3 (request_frame usage c [])
                39 HID_FEATURE_REPORT HID_REQ_SET_REPORT) as [[r1 resp1] d1].
    destruct (r1 <? 0) eqn:H1.
    { injection Hrun as <- <- <-. split; [reflexivity|congruence]. }
    destruct (ll_raw_request d1 3 (deposit resp1 (request_frame usage c []) 39)
                39 HID_FEATURE_REPORT HID_REQ_GET_REPORT) as [[r2 resp2] d2].
    destruct (r2 <? 0) eqn:H2.
    { injection Hrun as <- <- <-. split; [reflexivity|congruence]. }
    destruct ((len <=? 32)%nat && (len <=? length value)%nat);
      [|discriminate].
    injection Hrun as <- <- <-. split; [congruence|].
    intros _. apply Z.ltb_ge in H1, H2.
    eexists _, r1, _, r2. split; [exact H1|]. split; [exact H2|]. reflexivity.
  - destruct (get_value_unready w usage value len Hnr)
      as [[He Hrun']|[(f & w1 & Hrun')|(w1 & Hrun')]];
      rewrite Hrun' in Hrun; try discriminate.
    injection Hrun as <- <- <-. split; [reflexivity|congruence].
Qed.

End DriverProperties.

(** ** The notification sink *)

Lemma to_u8_small (b : Z) : is_u8 b -> to_u8 b = b.
Proof. unfold is_u8, to_u8. intros H. apply Z.mod_small. lia. Qed.

(** C9: for a report with identifier 2 or 3 that carries bytes 0 to 10,
    the decoder reports byte 0 as the event id, bytes 1-4 as the
    little-endian 32-bit usage, bytes 5-6 as the little-endian 16-bit
    counter and bytes 7-10 as the little-endian 32-bit value; for any
    other identifier it reports the identifier alone.  In both cases the
    device and its session are left as they were and 0 is returned. *)
Theorem raw_event_decodes {device : Type}
    (w : world device) (report_id : Z) (data : list Z) (size : Z) :
  ((report_id = 2 \/ report_id = 3) ->
   Forall is_u8 data -> (11 <= length data)%nat ->
   eizo_hid_driver_raw_event device report_id data size w =
   (Ret 0,
    mk_world (hdev w) (kmalloc_avail w)
      (trace w ++
       [EvLog KERN_INFO "event %d: %08x %04x %08x\n"
          [nth 0 data 0;
           le_decode (slice data 1 4);
           le_decode (slice data 5 2);
           le_decode (slice data 7 4)]]))) /\
  (report_id <> 2 -> report_id <> 3 ->
   eizo_hid_driver_raw_event device report_id data size w =
   (Ret 0,
    mk_world (hdev w) (kmalloc_avail w)
      (trace w ++ [EvLog KERN_INFO "event %d\n" [report_id]]))).
Proof.
  split.
  - intros Hid Hbytes Hlen.
    assert (Hsel : (report_id =? 2) || (report_id =? 3) = true)
      by (destruct Hid as [-> | ->]; reflexivity).
    do 11 (destruct data as [|? data]; [simpl in Hlen; lia|]).
    repeat match goal with
           | H : Forall _ (_ :: _) |- _ => inversion H; subst; clear H
           end.
    unfold eizo_hid_driver_raw_event. rewrite Hsel.
    unfold load. cbn [nth_error]. run.
    rewrite !le32_decode, le16_decode, to_u8_small by assumption.
    reflexivity.
  - intros H2 H3.
    apply Z.eqb_neq in H2, H3.
    unfold eizo_hid_driver_raw_event. rewrite H2, H3. reflexivity.
Qed.

(** ** Round trip through the echoing monitor *)

Lemma deposit_nil (frame : list Z) (len : nat) : deposit [] frame len = frame.
Proof. unfold deposit, blit. now rewrite firstn_nil. Qed.

Lemma deposit_full (resp frame : list Z) (len : nat) :
  length resp = len -> length frame = len -> deposit resp frame len = resp.
Proof.
  intros H H'. unfold deposit, blit.
  rewrite <- H, firstn_all. cbn [firstn app Nat.add].
  rewrite H, <- H', skipn_all. apply app_nil_r.
Qed.

Lemma frame_payload_request (usage c : Z) (payload : list Z) :
  (length payload <= 32)%nat ->
  frame_payload (request_frame usage c payload) =
  payload ++ zeroes (32 - length payload).
Proof.
  intros H. unfold frame_payload, request_frame, frame_header.
  cbn [app skipn]. apply firstn_all2.
  rewrite length_app, zeroes_length. lia.
Qed.

Lemma request_frame_header (usage c : Z) (payload : list Z) :
  firstn 7 (request_frame usage c payload) = frame_header usage c.
Proof. reflexivity. Qed.

Lemma request_frame_body (usage c : Z) (payload : list Z) :
  skipn 7 (request_frame usage c payload) =
  payload ++ zeroes (32 - length payload).
Proof. reflexivity. Qed.

(** C3: against the echoing monitor, for every usage code that fits 32
    bits and every payload of at most 32 bytes, a set followed by a get
    with the same usage and length succeeds and delivers exactly the
    bytes that were written (the rest of the caller's buffer is left
    alone). *)
Theorem set_get_round_trip
    (w : world Echo.state) (c usage : Z) (payload out : list Z) :
  ready w c ->
  0 <= usage < 2 ^ 32 ->
  (length payload <= 32)%nat ->
  (length payload <= length out)%nat ->
  exists w1 w2,
    eizo_set_value Echo.state Echo.raw_request usage payload (length payload) w
    = (Ret 0, w1) /\
    eizo_get_value Echo.state Echo.raw_request usage out (length payload) w1
    = (Ret (0, payload ++ skipn (length payload) out), w2).
Proof.
  intros Hr Hu Hlen Hout.
  rewrite (set_value_exec _ _ w c usage payload (length payload) Hr Hlen (le_n _)).
  rewrite firstn_all. cbv zeta.
  cbn [Echo.raw_request Z.eqb Pos.eqb Z.of_nat Pos.of_succ_nat Pos.succ Z.ltb
       Z.compare].
  eexists. eexists. split; [reflexivity|].
  rewrite (get_value_exec _ _ _ c usage out (length payload))
    by (now apply ready_after).
  cbv zeta.
  cbn [hdev ll_state Echo.raw_request Z.eqb Pos.eqb Z.of_nat Pos.of_succ_nat
       Pos.succ Z.ltb Z.compare Echo.settings Echo.armed].
  rewrite (proj2 (Nat.leb_le _ _) Hlen), (proj2 (Nat.leb_le _ _) Hout).
  cbn [andb].
  apply f_equal2; [|reflexivity]. do 2 f_equal.
  rewrite request_frame_header.
  assert (Harmed : frame_usage (frame_header usage c) = usage)
    by (rewrite <- (app_nil_r (frame_header usage c));
        now apply frame_usage_header).
  assert (Hset : frame_usage (request_frame usage c payload) = usage)
    by (now apply frame_usage_header).
  rewrite Harmed, Hset, Z.eqb_refl, frame_payload_request by assumption.
  rewrite deposit_nil.
  change (frame_header usage c ++ payload ++ zeroes (32 - length payload))
    with (request_frame usage c payload).
  rewrite deposit_full by (apply request_frame_length; simpl; lia).
  rewrite request_frame_body, firstn_app, firstn_all, Nat.sub_diag.
  cbn [firstn]. rewrite app_nil_r.
  unfold blit. reflexivity.
Qed.

(** ** Concrete instances *)

Lemma echo_bench_ready : ready echo_bench 1.
Proof. split; [reflexivity|]. apply Nat.leb_le. reflexivity. Defined.

Lemma unplugged_bench_ready : ready unplugged_bench 1.
Proof. split; [reflexivity|]. apply Nat.leb_le. reflexivity. Defined.

(** [kzalloc] never yields a pointer that [IS_ERR] recognises, so the
    [-ENOMEM] branches of [eizo_set_value] and [eizo_get_value] are never
    taken. *)
Lemma kzalloc_never_is_err {device : Type} (size : nat) (w : world device) :
  exists p w', kzalloc device size w = (Ret p, w') /\ IS_ERR p = false.
Proof.
  unfold kzalloc. destruct (size <=? kmalloc_avail w)%nat; eauto.
Qed.

(** C8 (the code at an allocation failure): with no memory for the frame,
    neither set nor get returns -ENOMEM; each takes the token and then
    stores through the null pointer, the token still held. *)
Theorem alloc_failure_takes_token :
  eizo_set_value Echo.state Echo.raw_request 1 [170; 187] 2 echo_bench_no_memory
  = (Fault BadPointer,
     mk_world (mk_hid_device (PTR (mk_eizo_data true 1)) Echo.init) 0 [EvLock]) /\
  eizo_get_value Echo.state Echo.raw_request 1 [0; 0] 2 echo_bench_no_memory
  = (Fault BadPointer,
     mk_world (mk_hid_device (PTR (mk_eizo_data true 1)) Echo.init) 0 [EvLock]).
Proof. split; reflexivity. Qed.

(** C1 (counterexample): a 33-byte payload on a freshly probed device is
    rejected up front neither by set nor by get. *)
Lemma oversized_payload_counterexample :
  ~ rejected_up_front (fun r => r) echo_bench
      (eizo_set_value Echo.state Echo.raw_request 1 (zeroes 33) 33 echo_bench) /\
  ~ rejected_up_front fst echo_bench
      (eizo_get_value Echo.state Echo.raw_request 1 (zeroes 33) 33 echo_bench).
Proof.
  split.
  - intros [[a [Ha _]] _]. vm_compute in Ha. discriminate.
  - intros [[a [Ha _]] _]. vm_compute in Ha. discriminate.
Qed.

Lemma set_frame_bit_exact_witness :
  ready echo_bench 1 /\
  exists r,
    transport_calls
      (trace (snd (eizo_set_value Echo.state Echo.raw_request 1 [170; 187] 2
                     echo_bench))) =
    transport_calls (trace echo_bench) ++
    [EvRawRequest 2
       [0; 1; 0; 0; 0; 1; 0; 170; 187;
        0; 0; 0; 0; 0; 0; 0; 0; 0; 0; 0; 0; 0; 0; 0;
        0; 0; 0; 0; 0; 0; 0; 0; 0; 0; 0; 0; 0; 0; 0]
       39 HID_FEATURE_REPORT HID_REQ_SET_REPORT r].
Proof.
  split; [exact echo_bench_ready|].
  exact (set_frame_bit_exact Echo.state Echo.raw_request echo_bench
           echo_bench_ready).
Defined.

Lemma set_get_round_trip_witness :
  ready echo_bench 1 /\ 0 <= 305419896 < 2 ^ 32 /\
  (length [170; 187] <= 32)%nat /\
  (length [170; 187] <= length [9; 9; 9])%nat /\
  exists w1 w2,
    eizo_set_value Echo.state Echo.raw_request 305419896 [170; 187] 2 echo_bench
    = (Ret 0, w1) /\
    eizo_get_value Echo.state Echo.raw_request 305419896 [9; 9; 9] 2 w1
    = (Ret (0, [170; 187; 9]), w2).
Proof.
  assert (Hu : 0 <= 305419896 < 2 ^ 32) by (split; [discriminate|reflexivity]).
  assert (H1 : (length [170; 187] <= 32)%nat) by (apply Nat.leb_le; reflexivity).
  assert (H2 : (length [170; 187] <= length [9; 9; 9])%nat)
    by (apply Nat.leb_le; reflexivity).
  split; [exact echo_bench_ready|]. split; [exact Hu|].
  split; [exact H1|]. split; [exact H2|].
  exact (set_get_round_trip echo_bench 1 305419896 [170; 187] [9; 9; 9]
           echo_bench_ready Hu H1 H2).
Defined.

Lemma arm_failure_skips_fetch_witness :
  ready unplugged_bench 1 /\
  Unplugged.raw_request (ll_state (hdev unplugged_bench)) 3
    (request_frame 1 1 []) 39 HID_FEATURE_REPORT HID_REQ_SET_REPORT
  = (- ENODEV, [], tt) /\
  - ENODEV < 0 /\
  exists w',
    eizo_get_value unit Unplugged.raw_request 1 [7; 7] 2 unplugged_bench
    = (Ret (- ENODEV, [7; 7]), w') /\
    trace w' =
      trace unplugged_bench ++
      [EvLock;
       EvRawRequest 3 (request_frame 1 1 []) 39
         HID_FEATURE_REPORT HID_REQ_SET_REPORT (- ENODEV);
       EvLog KERN_ERR "failed to set hid report: %d\n" [- ENODEV];
       EvUnlock] /\
    session_locked w' = false /\
    ready w' 1.
Proof.
  split; [exact unplugged_bench_ready|]. split; [reflexivity|].
  split; [reflexivity|].
  exact (arm_failure_skips_fetch unit Unplugged.raw_request unplugged_bench
           1 1 [7; 7] 2 (- ENODEV) [] tt
           unplugged_bench_ready eq_refl eq_refl).
Defined.

Lemma token_released_on_return_witness :
  let run_set :=
    eizo_set_value Echo.state Echo.raw_request 1 [170; 187] 2 echo_bench in
  let run_get :=
    eizo_get_value unit Unplugged.raw_request 1 [7; 7] 2 unplugged_bench in
  (run_set = (Ret 0, snd run_set) /\ session_locked (snd run_set) = false) /\
  (run_get = (Ret (- ENODEV, [7; 7]), snd run_get) /\
   session_locked (snd run_get) = false).
Proof.
  intros run_set run_get. split.
  - split; [reflexivity|].
    exact (proj1 (proj1 (token_released_on_return Echo.state Echo.raw_request
                           echo_bench 1 [170; 187] 2)
                    0 (snd run_set) eq_refl)).
  - split; [reflexivity|].
    exact (proj1 (proj2 (token_released_on_return unit Unplugged.raw_request
                           unplugged_bench 1 [7; 7] 2)
                    (- ENODEV, [7; 7]) (snd run_get) eq_refl)).
Defined.

Lemma set_single_transport_call_witness :
  ready echo_bench 1 /\ (2 <= 32)%nat /\ (2 <= length [170; 187])%nat /\
  exists r resp d' w',
    Echo.raw_request (ll_state (hdev echo_bench)) 2
      (request_frame 1 1 (firstn 2 [170; 187])) 39
      HID_FEATURE_REPORT HID_REQ_SET_REPORT = (r, resp, d') /\
    eizo_set_value Echo.state Echo.raw_request 1 [170; 187] 2 echo_bench
    = (Ret (if r <? 0 then r else 0), w') /\
    transport_calls (trace w') =
      transport_calls (trace echo_bench) ++
      [EvRawRequest 2 (request_frame 1 1 (firstn 2 [170; 187])) 39
         HID_FEATURE_REPORT HID_REQ_SET_REPORT r] /\
    length (request_frame 1 1 (firstn 2 [170; 187])) = 39%nat.
Proof.
  assert (H1 : (2 <= 32)%nat) by (apply Nat.leb_le; reflexivity).
  assert (H2 : (2 <= length [170; 187])%nat) by (apply Nat.leb_le; reflexivity).
  split; [exact echo_bench_ready|]. split; [exact H1|]. split; [exact H2|].
  exact (set_single_transport_call Echo.state Echo.raw_request echo_bench
           1 1 [170; 187] 2 echo_bench_ready H1 H2).
Defined.

Lemma raw_event_decodes_witness :
  let data := [5; 1; 0; 0; 0; 1; 0; 42; 1; 0; 0; 0; 0] in
  ((2 = 2 \/ 2 = 3) /\ Forall is_u8 data /\ (11 <= length data)%nat /\
   eizo_hid_driver_raw_event Echo.state 2 data 13 echo_bench =
   (Ret 0,
    mk_world (hdev echo_bench) (kmalloc_avail echo_bench)
      (trace echo_bench ++
       [EvLog KERN_INFO "event %d: %08x %04x %08x\n" [5; 1; 1; 298]]))) /\
  (7 <> 2 /\ 7 <> 3 /\
   eizo_hid_driver_raw_event Echo.state 7 data 13 echo_bench =
   (Ret 0,
    mk_world (hdev echo_bench) (kmalloc_avail echo_bench)
      (trace echo_bench ++ [EvLog KERN_INFO "event %d\n" [7]]))).
Proof.
  intros data.
  assert (Hb : Forall is_u8 data)
    by (repeat constructor; discriminate).
  assert (Hl : (11 <= length data)%nat) by (apply Nat.leb_le; reflexivity).
  assert (H72 : 7 <> 2) by discriminate.
  assert (H73 : 7 <> 3) by discriminate.
  split.
  - split; [left; reflexivity|]. split; [exact Hb|]. split; [exact Hl|].
    exact (proj1 (raw_event_decodes echo_bench 2 data 13)
             (or_introl eq_refl) Hb Hl).
  - split; [exact H72|]. split; [exact H73|].
    exact (proj2 (raw_event_decodes echo_bench 7 data 13) H72 H73).
Defined.

Lemma get_error_leaves_output_witness :
  let run :=
    eizo_get_value unit Unplugged.raw_request 1 [7; 7] 2 unplugged_bench in
  run = (Ret (- ENODEV, [7; 7]), snd run) /\
  (- ENODEV <> 0 -> [7; 7] = [7; 7]) /\
  ([7; 7] <> [7; 7] ->
   exists frame r1 frame1 r2,
     0 <= r1 /\ 0 <= r2 /\
     trace (snd run) =
       trace unplugged_bench ++
       [EvLock;
        EvRawRequest 3 frame 39 HID_FEATURE_REPORT HID_REQ_SET_REPORT r1;
        EvRawRequest 3 frame1 39 HID_FEATURE_REPORT HID_REQ_GET_REPORT r2;
        EvUnlock]).
Proof.
  intros run. split; [reflexivity|].
  exact (get_error_leaves_output unit Unplugged.raw_request unplugged_bench
           (snd run) 1 [7; 7] [7; 7] 2 (- ENODEV) eq_refl).
Defined.

(** ** Further properties of the protocol functions *)

Section MoreDriverProperties.

Variable device : Type.
Variable ll_raw_request :
  device -> Z -> list Z -> nat -> hid_report_type -> hid_class_request ->
  Z * list Z * device.

Abbreviation set_value' := (eizo_set_value device ll_raw_request).
Abbreviation get_value' := (eizo_get_value device ll_raw_request).

(** The worlds from which [get] returns, and what it leaves. *)
Lemma get_value_returns
    (w w' : world device) (usage : Z) (value value' : list Z) (len : nat) (r : Z) :
  get_value' usage value len w = (Ret (r, value'), w') ->
  (IS_ERR (driver_data (hdev w)) = true /\ r = - ENODATA /\ value' = value /\
   w' = mk_world (hdev w) (kmalloc_avail w)
          (trace w ++ [EvLog KERN_ERR "failed to get eizo_data\n" []])) \/
  (exists c r1 resp1 d1,
      ready w c /\
      ll_raw_request (ll_state (hdev w)) 3 (request_frame usage c []) 39
        HID_FEATURE_REPORT HID_REQ_SET_REPORT = (r1, resp1, d1) /\
      let frame := request_frame usage c [] in
      let arm :=
        EvRawRequest 3 frame 39 HID_FEATURE_REPORT HID_REQ_SET_REPORT r1 in
      let frame1 := deposit resp1 frame 39 in
      ((r1 < 0 /\ r = r1 /\ value' = value /\
        w' = mk_world (mk_hid_device (PTR (mk_eizo_data false c)) d1)
               (kmalloc_avail w)
               (trace w ++
                [EvLock; arm;
                 EvLog KERN_ERR "failed to set hid report: %d\n" [r1];
                 EvUnlock])) \/
       (0 <= r1 /\
        exists r2 resp2 d2,
          ll_raw_request d1 3 frame1 39 HID_FEATURE_REPORT HID_REQ_GET_REPORT
          = (r2, resp2, d2) /\
          let fetch :=
            EvRawRequest 3 frame1 39 HID_FEATURE_REPORT HID_REQ_GET_REPORT r2 in
          ((r2 < 0 /\ r = r2 /\ value' = value /\
            w' = mk_world (mk_hid_device (PTR (mk_eizo_data false c)) d2)
                   (kmalloc_avail w)
                   (trace w ++
                    [EvLock; arm; fetch;
                     EvLog KERN_ERR "failed to get hid report: %d\n" [r2];
                     EvUnlock])) \/
           (0 <= r2 /\ (len <= 32)%nat /\ (len <= length value)%nat /\ r = 0 /\
            value' = blit (firstn len (skipn 7 (deposit resp2 frame1 39))) value 0 /\
            w' = mk_world (mk_hid_device (PTR (mk_eizo_data false c)) d2)
                   (kmalloc_avail w)
                   (trace w ++ [EvLock; arm; fetch; EvUnlock])))))).
Proof.
  intros Hrun.
  destruct (ready_dec device w) as [[c Hr]|Hnr].
  - right.
    rewrite (get_value_exec device ll_raw_request w c usage value len Hr) in Hrun.
    cbv zeta in Hrun.
    destruct (ll_raw_request (ll_state (hdev w)) 3 (request_frame usage c [])
                39 HID_FEATURE_REPORT HID_REQ_SET_REPORT)
      as [[r1 resp1] d1] eqn:Harm.
    exists c, r1, resp1, d1. split; [exact Hr|]. split; [first [exact Harm|reflexivity]|].
    cbv zeta.
    destruct (r1 <? 0) eqn:H1.
    { apply Z.ltb_lt in H1. injection Hrun as <- <- <-. left. auto. }
    apply Z.ltb_ge in H1. right. split; [exact H1|].
    destruct (ll_raw_request d1 3 (deposit resp1 (request_frame usage c []) 39)
                39 HID_FEATURE_REPORT HID_REQ_GET_REPORT)
      as [[r2 resp2] d2] eqn:Hfetch.
    exists r2, resp2, d2. split; [first [exact Hfetch|reflexivity]|].
    destruct (r2 <? 0) eqn:H2.
    { apply Z.ltb_lt in H2. injection Hrun as <- <- <-. left. auto. }
    apply Z.ltb_ge in H2. right.
    destruct (len <=? 32)%nat eqn:H32; [|discriminate].
    destruct (len <=? length value)%nat eqn:Hv; [|discriminate].
    apply Nat.leb_le in H32, Hv. cbn [andb] in Hrun.
    injection Hrun as <- <- <-. auto 7.
  - left.
    destruct (get_value_unready device ll_raw_request w usage value len Hnr)
      as [[He Hrun']|[(f & w1 & Hrun')|(w1 & Hrun')]];
      rewrite Hrun' in Hrun; try discriminate.
    injection Hrun as <- <- <-. auto.
Qed.

(** X1: the status set and get return is never positive: a transport's
    byte count is turned into 0, everything else is a negative errno. *)
Theorem status_never_positive
    (w : world device) (usage : Z) (value : list Z) (len : nat) :
  (forall r w', set_value' usage value len w = (Ret r, w') -> r <= 0) /\
  (forall r value' w',
      get_value' usage value len w = (Ret (r, value'), w') -> r <= 0).
Proof.
  split.
  - intros r w' Hrun.
    destruct (set_value_returns _ _ _ _ _ _ _ _ Hrun)
      as [(_ & -> & _)|(c & r0 & d' & _ & -> & _)].
    + discriminate.
    + destruct (r0 <? 0) eqn:H0; [apply Z.ltb_lt in H0|]; lia.
  - intros r value' w' Hrun.
    destruct (get_value_returns _ _ _ _ _ _ _ Hrun)
      as [(_ & -> & _)|(c & r1 & resp1 & d1 & _ & _ & H)].
    + discriminate.
    + cbv zeta in H.
      destruct H as [(? & -> & _)
                    |(_ & r2 & resp2 & d2 & _ &
                      [(? & -> & _)|(_ & _ & _ & -> & _)])];
        lia.
Qed.

(** X2: a call that returns has given the frame back: the allocator is
    left with exactly what it had. *)
Theorem frame_always_freed
    (w : world device) (usage : Z) (value : list Z) (len : nat) :
  (forall r w',
      set_value' usage value len w = (Ret r, w') ->
      kmalloc_avail w' = kmalloc_avail w) /\
  (forall r w',
      get_value' usage value len w = (Ret r, w') ->
      kmalloc_avail w' = kmalloc_avail w).
Proof.
  split.
  - intros r w' Hrun.
    destruct (set_value_returns _ _ _ _ _ _ _ _ Hrun)
      as [(_ & _ & ->)|(c & r0 & d' & _ & _ & ->)]; reflexivity.
  - intros [r value'] w' Hrun.
    destruct (get_value_returns _ _ _ _ _ _ _ Hrun)
      as [(_ & _ & _ & ->)|(c & r1 & resp1 & d1 & _ & _ & H)];
      [reflexivity|].
    cbv zeta in H.
    destruct H as [(_ & _ & _ & ->)
                  |(_ & r2 & resp2 & d2 & _ &
                    [(_ & _ & _ & ->)|(_ & _ & _ & _ & _ & ->)])];
      reflexivity.
Qed.

End MoreDriverProperties.

Lemma deposit_window (resp frame : list Z) (m off n : nat) :
  (off + n <= m)%nat -> (off + n <= length resp)%nat ->
  firstn n (skipn off (deposit resp frame m)) = firstn n (skipn off resp).
Proof.
  intros Hm Hresp. unfold deposit, blit.
  rewrite firstn_O, app_nil_l, Nat.add_0_l.
  assert (HA : (off + n <= length (firstn m resp))%nat)
    by (rewrite length_firstn; lia).
  rewrite skipn_app, firstn_app, length_skipn.
  replace (n - (length (firstn m resp) - off))%nat with 0%nat by lia.
  rewrite firstn_O, app_nil_r.
  rewrite skipn_firstn_comm, firstn_firstn.
  now replace (Nat.min n (m - off)) with n by lia.
Qed.

Section MoreDriverProperties2.

Variable device : Type.
Variable ll_raw_request :
  device -> Z -> list Z -> nat -> hid_report_type -> hid_class_request ->
  Z * list Z * device.

Abbreviation set_value'' := (eizo_set_value device ll_raw_request).
Abbreviation get_value'' := (eizo_get_value device ll_raw_request).

(** X3: when both transport calls of a get succeed, the value delivered
    is bytes 7 .. 7+len-1 of what the fetch stored in the frame, the
    caller's buffer beyond [len] is untouched, and the exchange is lock,
    arm, fetch, unlock. *)
Theorem get_delivers_response_bytes
    (w : world device) (c usage : Z) (value : list Z) (len : nat)
    (r1 r2 : Z) (resp1 resp2 : list Z) (d1 d2 : device) :
  ready w c ->
  ll_raw_request (ll_state (hdev w)) 3 (request_frame usage c []) 39
    HID_FEATURE_REPORT HID_REQ_SET_REPORT = (r1, resp1, d1) ->
  0 <= r1 ->
  ll_raw_request d1 3 (deposit resp1 (request_frame usage c []) 39) 39
    HID_FEATURE_REPORT HID_REQ_GET_REPORT = (r2, resp2, d2) ->
  0 <= r2 ->
  (len <= 32)%nat -> (len <= length value)%nat ->
  (7 + len <= length resp2)%nat ->
  get_value'' usage value len w =
  (Ret (0, firstn len (skipn 7 resp2) ++ skipn len value),
   mk_world (mk_hid_device (PTR (mk_eizo_data false c)) d2) (kmalloc_avail w)
     (trace w ++
      [EvLock;
       EvRawRequest 3 (request_frame usage c []) 39
         HID_FEATURE_REPORT HID_REQ_SET_REPORT r1;
       EvRawRequest 3 (deposit resp1 (request_frame usage c []) 39) 39
         HID_FEATURE_REPORT HID_REQ_GET_REPORT r2;
       EvUnlock])).
Proof.
  intros Hr Harm H1 Hfetch H2 Hlen Hval Hresp.
  rewrite (get_value_exec device ll_raw_request w c usage value len Hr).
  cbv zeta. rewrite Harm.
  apply Z.ltb_ge in H1, H2. rewrite H1, Hfetch, H2.
  rewrite (proj2 (Nat.leb_le _ _) Hlen), (proj2 (Nat.leb_le _ _) Hval).
  cbn [andb]. rewrite deposit_window by lia.
  unfold blit. cbn [firstn app Nat.add].
  rewrite length_firstn, length_skipn.
  now replace (Nat.min len (length resp2 - 7)) with len by lia.
Qed.

(** X4: while the token is held, neither set nor get gets as far as the
    transport: the caller sleeps on the mutex, nothing is logged or sent,
    and the session is left as it is. *)
Theorem held_token_blocks
    (w : world device) (usage : Z) (value : list Z) (len : nat) :
  session_locked w = true ->
  (exists w', set_value'' usage value len w = (Blocked, w') /\
              trace w' = trace w /\ hdev w' = hdev w) /\
  (exists w', get_value'' usage value len w = (Blocked, w') /\
              trace w' = trace w /\ hdev w' = hdev w).
Proof.
  unfold session_locked. intros Hl.
  destruct w as [[dd dev] avail tr]. cbn [hdev driver_data] in Hl.
  destruct dd as [|e|[l c]]; try discriminate. cbn [lock] in Hl. subst l.
  split.
  - unfold eizo_set_value, kzalloc. run. cbn [IS_ERR].
    destruct (39 <=? avail)%nat; cbn [IS_ERR]; eauto.
  - unfold eizo_get_value, kzalloc. run. cbn [IS_ERR].
    destruct (39 <=? avail)%nat; cbn [IS_ERR]; eauto.
Qed.

(** X5: when the driver data is an error pointer, set and get return
    -ENODATA without allocating, locking or calling the transport; set
    leaves the world untouched and get only logs the failure and leaves
    the caller's buffer alone. *)
Theorem error_session_reported
    (w : world device) (usage : Z) (value : list Z) (len : nat) :
  IS_ERR (driver_data (hdev w)) = true ->
  set_value'' usage value len w = (Ret (- ENODATA), w) /\
  get_value'' usage value len w =
  (Ret (- ENODATA, value),
   mk_world (hdev w) (kmalloc_avail w)
     (trace w ++ [EvLog KERN_ERR "failed to get eizo_data\n" []])).
Proof.
  intros He. destruct w as [[dd dev] avail tr]. cbn [hdev driver_data] in He.
  split.
  - unfold eizo_set_value. run. now rewrite He.
  - unfold eizo_get_value. run. now rewrite He.
Qed.

(** X6: a null driver data pointer is not caught by the [IS_ERR] test:
    neither set nor get returns -ENODATA then.  Each goes on to lock
    through the null pointer, before any transport call. *)
Theorem null_session_not_reported
    (w : world device) (usage : Z) (value : list Z) (len : nat) :
  driver_data (hdev w) = NULL ->
  (exists w', set_value'' usage value len w = (Fault BadPointer, w') /\
              trace w' = trace w) /\
  (exists w', get_value'' usage value len w = (Fault BadPointer, w') /\
              trace w' = trace w).
Proof.
  intros Hd. destruct w as [[dd dev] avail tr]. cbn [hdev driver_data] in Hd.
  subst dd. split.
  - unfold eizo_set_value, kzalloc. run. cbn [IS_ERR].
    destruct (39 <=? avail)%nat; cbn [IS_ERR]; eauto.
  - unfold eizo_get_value, kzalloc. run. cbn [IS_ERR].
    destruct (39 <=? avail)%nat; cbn [IS_ERR]; eauto.
Qed.

End MoreDriverProperties2.

(** ** Further properties of the notification sink *)

(** What the sink logs for a report 2 or 3 of at least eleven bytes. *)
Lemma raw_event_exec {device : Type}
    (w : world device) (report_id : Z) (data : list Z) (size : Z) :
  report_id = 2 \/ report_id = 3 ->
  Forall is_u8 data -> (11 <= length data)%nat ->
  eizo_hid_driver_raw_event device report_id data size w =
  (Ret 0,
   mk_world (hdev w) (kmalloc_avail w)
     (trace w ++
      [EvLog KERN_INFO "event %d: %08x %04x %08x\n"
         [nth 0 data 0;
          le_decode (slice data 1 4);
          le_decode (slice data 5 2);
          le_decode (slice data 7 4)]])).
Proof.
  intros Hid Hbytes Hlen.
  assert (Hsel : (report_id =? 2) || (report_id =? 3) = true)
    by (destruct Hid as [-> | ->]; reflexivity).
  do 11 (destruct data as [|? data]; [simpl in Hlen; lia|]).
  repeat match goal with
         | H : Forall _ (_ :: _) |- _ => inversion H; subst; clear H
         end.
  unfold eizo_hid_driver_raw_event. rewrite Hsel.
  unfold load. cbn [nth_error]. run.
  rewrite !le32_decode, le16_decode, to_u8_small by assumption.
  reflexivity.
Qed.

(** X7: the sink never looks at [size].  A report 2 or 3 shorter than
    eleven bytes makes it read past the end of the report, whatever
    [size] says. *)
Theorem raw_event_short_report {device : Type}
    (w : world device) (report_id : Z) (data : list Z) (size : Z) :
  report_id = 2 \/ report_id = 3 ->
  (length data < 11)%nat ->
  eizo_hid_driver_raw_event device report_id data size w
  = (Fault OutOfBounds, w).
Proof.
  intros Hid Hlen.
  assert (Hsel : (report_id =? 2) || (report_id =? 3) = true)
    by (destruct Hid as [-> | ->]; reflexivity).
  unfold eizo_hid_driver_raw_event. rewrite Hsel.
  do 11 (destruct data as [|? data]; [reflexivity|]).
  simpl in Hlen. lia.
Qed.

Lemma land_255_u8 (x : Z) : is_u8 (Z.land x 255).
Proof.
  unfold is_u8. change 255 with (Z.ones 8). rewrite Z.land_ones by lia.
  change (2 ^ 8) with 256. apply Z.mod_pos_bound. lia.
Qed.

Lemma frame_header_u8 (usage c : Z) : Forall is_u8 (frame_header usage c).
Proof.
  unfold frame_header.
  repeat (constructor; [first [apply land_255_u8 | unfold is_u8; lia]|]).
  constructor.
Qed.

Lemma zeroes_u8 (n : nat) : Forall is_u8 (zeroes n).
Proof.
  induction n as [|n IH]; simpl; constructor; [unfold is_u8; lia|exact IH].
Qed.

Lemma request_frame_u8 (usage c : Z) (payload : list Z) :
  Forall is_u8 payload -> Forall is_u8 (request_frame usage c payload).
Proof.
  intros H. unfold request_frame.
  apply Forall_app. split; [apply frame_header_u8|].
  apply Forall_app. split; [exact H|apply zeroes_u8].
Qed.

Lemma le_decode_usage (u : Z) :
  0 <= u < 2 ^ 32 ->
  le_decode [Z.land (Z.shiftr u 0) 255; Z.land (Z.shiftr u 8) 255;
             Z.land (Z.shiftr u 16) 255; Z.land (Z.shiftr u 24) 255] = u.
Proof.
  intros Hu.
  assert (H := frame_usage_header u 0 [] Hu).
  unfold frame_usage, frame_header in H. cbn [app nth] in H.
  unfold le_decode. lia.
Qed.

Lemma le_decode_counter (c : Z) :
  0 <= c < 2 ^ 16 ->
  le_decode [Z.land (Z.shiftr c 0) 255; Z.land (Z.shiftr c 8) 255] = c.
Proof.
  intros Hc. unfold le_decode.
  change 255 with (Z.ones 8).
  rewrite !Z.land_ones by lia.
  rewrite !Z.shiftr_div_pow2 by lia.
  change (2 ^ 0) with 1. change (2 ^ 8) with 256.
  change (2 ^ 16) with 65536 in Hc.
  Z.div_mod_to_equations. lia.
Qed.

(** X8: the notification layout mirrors the request layout.  Fed a frame
    laid out like a request (32-bit usage, 16-bit counter, a payload of 4
    to 32 bytes), the sink reports event id 0, that usage, that counter
    and the first four payload bytes as a little-endian value. *)
Theorem raw_event_reads_request_layout {device : Type}
    (w : world device) (report_id usage c : Z) (payload : list Z) (size : Z) :
  report_id = 2 \/ report_id = 3 ->
  0 <= usage < 2 ^ 32 -> 0 <= c < 2 ^ 16 ->
  Forall is_u8 payload -> (4 <= length payload <= 32)%nat ->
  eizo_hid_driver_raw_event device report_id
    (request_frame usage c payload) size w =
  (Ret 0,
   mk_world (hdev w) (kmalloc_avail w)
     (trace w ++
      [EvLog KERN_INFO "event %d: %08x %04x %08x\n"
         [0; usage; c; le_decode (firstn 4 payload)]])).
Proof.
  intros Hid Hu Hc Hp [Hl4 Hl32].
  rewrite raw_event_exec;
    [|exact Hid|now apply request_frame_u8|rewrite request_frame_length; lia].
  do 4 (destruct payload as [|? payload]; [simpl in Hl4; lia|]).
  unfold slice, request_frame, frame_header.
  cbn [app nth skipn firstn].
  now rewrite le_decode_usage, le_decode_counter.
Qed.

(** ** The brightness attribute *)

Lemma u8_land_255 (b : Z) : is_u8 b -> Z.land b 255 = b.
Proof.
  unfold is_u8. intros H. change 255 with (Z.ones 8).
  rewrite Z.land_ones by lia. apply Z.mod_small. lia.
Qed.

Lemma u8_shiftr_8 (b : Z) : is_u8 b -> Z.shiftr b 8 = 0.
Proof.
  unfold is_u8. intros H. rewrite Z.shiftr_div_pow2 by lia.
  apply Z.div_small. lia.
Qed.

Lemma u16_join (lo hi : Z) :
  is_u8 lo -> is_u8 hi ->
  Z.land (lo + 2 ^ 8 * hi) 255 = lo /\ Z.shiftr (lo + 2 ^ 8 * hi) 8 = hi.
Proof.
  unfold is_u8. intros Hlo Hhi.
  change 255 with (Z.ones 8). rewrite Z.land_ones by lia.
  rewrite Z.shiftr_div_pow2 by lia. change (2 ^ 8) with 256.
  split; Z.div_mod_to_equations; lia.
Qed.

Lemma swab16_join (lo hi : Z) :
  is_u8 lo -> is_u8 hi -> swab16 (lo + 2 ^ 8 * hi) = hi + 2 ^ 8 * lo.
Proof.
  intros Hlo Hhi. unfold swab16.
  destruct (u16_join lo hi Hlo Hhi) as [-> ->].
  rewrite (u8_land_255 hi Hhi), Z.lor_comm.
  apply lor_shiftl_add; unfold is_u8 in *; lia.
Qed.

Lemma u16_split (v : Z) :
  0 <= v < 2 ^ 16 ->
  is_u8 (Z.land v 255) /\ is_u8 (Z.land (Z.shiftr v 8) 255) /\
  v = Z.land v 255 + 2 ^ 8 * Z.land (Z.shiftr v 8) 255.
Proof.
  intros Hv. split; [apply land_255_u8|]. split; [apply land_255_u8|].
  change 255 with (Z.ones 8). rewrite !Z.land_ones by lia.
  rewrite Z.shiftr_div_pow2 by lia.
  change (2 ^ 8) with 256. change (2 ^ 16) with 65536 in Hv.
  Z.div_mod_to_equations. lia.
Qed.

(** Whatever the host byte order, the object that [cpu_to_le16s] leaves
    behind holds the low byte first. *)
Lemma u16_bytes_cpu_to_le16 (big_endian : bool) (v : Z) :
  0 <= v < 2 ^ 16 ->
  u16_bytes big_endian (cpu_to_le16 big_endian v)
  = [Z.land v 255; Z.land (Z.shiftr v 8) 255].
Proof.
  intros Hv. destruct big_endian; [|reflexivity].
  unfold u16_bytes, cpu_to_le16.
  destruct (u16_split v Hv) as (Hlo & Hhi & Heq).
  rewrite Heq at 1 2. rewrite swab16_join by assumption.
  destruct (u16_join _ _ Hhi Hlo) as [-> ->].
  now rewrite (u8_land_255 _ Hlo).
Qed.

(** Whatever the host byte order, [le16_to_cpus] on an object holding the
    bytes [b0 b1] yields the little-endian reading of them. *)
Lemma le16_to_cpu_of_bytes (big_endian : bool) (b0 b1 : Z) (rest : list Z) :
  is_u8 b0 -> is_u8 b1 ->
  le16_to_cpu big_endian (u16_of_bytes big_endian (b0 :: b1 :: rest))
  = b0 + 2 ^ 8 * b1.
Proof.
  intros H0 H1. unfold le16_to_cpu, u16_of_bytes. cbn [nth].
  destruct big_endian.
  - rewrite Z.lor_comm, (lor_shiftl_add b1 b0 8) by (unfold is_u8 in *; lia).
    now apply swab16_join.
  - apply lor_shiftl_add; unfold is_u8 in *; lia.
Qed.

Lemma u16_bytes_length (big_endian : bool) (v : Z) :
  length (u16_bytes big_endian v) = 2%nat.
Proof. now destruct big_endian. Qed.

Section BrightnessProperties.

Variable device : Type.
Variable ll_raw_request :
  device -> Z -> list Z -> nat -> hid_report_type -> hid_class_request ->
  Z * list Z * device.
Variable EIZO_USAGE_BRIGHTNESS : Z.
Variable kstrtou16 : string -> Z -> Z * Z.
Variable big_endian : bool.

Abbreviation store_brightness :=
  (eizo_attr_store_brightness device ll_raw_request EIZO_USAGE_BRIGHTNESS
     kstrtou16 big_endian).
Abbreviation show_brightness :=
  (eizo_attr_show_brightness device ll_raw_request EIZO_USAGE_BRIGHTNESS
     big_endian).

Lemma brightness_payload (v : Z) :
  0 <= v <= 200 ->
  firstn 2 (u16_bytes big_endian (cpu_to_le16 big_endian v)) = [v; 0].
Proof.
  intros Hv.
  rewrite u16_bytes_cpu_to_le16 by lia. cbn [firstn].
  assert (H8 : is_u8 v) by (unfold is_u8; lia).
  now rewrite (u8_shiftr_8 v H8), (u8_land_255 v H8).
Qed.

Lemma to_u16_range (x : Z) : 0 <= to_u16 x < 2 ^ 16.
Proof. unfold to_u16. apply Z.mod_pos_bound. lia. Qed.

(** What a store does once the text has parsed to a value of at most
    200. *)
Lemma store_brightness_exec
    (w : world device) (c : Z) (buf : string) (count res parsed : Z) :
  kstrtou16 buf 10 = (res, parsed) -> 0 <= res -> to_u16 parsed <= 200 ->
  ready w c ->
  store_brightness buf count w =
  let v := to_u16 parsed in
  let frame := request_frame EIZO_USAGE_BRIGHTNESS c [v; 0] in
  let '(r, _, d') :=
    ll_raw_request (ll_state (hdev w)) 2 frame 39
      HID_FEATURE_REPORT HID_REQ_SET_REPORT in
  if r <? 0 then
    (Ret r,
     mk_world (mk_hid_device (PTR (mk_eizo_data false c)) d') (kmalloc_avail w)
       (trace w ++
        [EvLock;
         EvRawRequest 2 frame 39 HID_FEATURE_REPORT HID_REQ_SET_REPORT r;
         EvLog KERN_ERR "failed to set hid report: %d\n" [r];
         EvUnlock;
         EvLog KERN_ERR "failed to set %s value to %d, error %d\n"
           [cpu_to_le16 big_endian v; r]]))
  else
    (Ret count,
     mk_world (mk_hid_device (PTR (mk_eizo_data false c)) d') (kmalloc_avail w)
       (trace w ++
        [EvLock;
         EvRawRequest 2 frame 39 HID_FEATURE_REPORT HID_REQ_SET_REPORT r;
         EvUnlock])).
Proof.
  intros Hparse Hres Hv Hr.
  assert (Hrange := to_u16_range parsed).
  unfold eizo_attr_store_brightness. rewrite Hparse.
  apply Z.ltb_ge in Hres. rewrite Hres.
  assert (Hneg : (to_u16 parsed <? 0) = false) by (apply Z.ltb_ge; lia).
  assert (Hbig : (to_u16 parsed >? 200) = false)
    by (rewrite Z.gtb_ltb; apply Z.ltb_ge; lia).
  rewrite Hneg, Hbig. cbn [orb]. cbv zeta.
  unfold bind at 1.
  rewrite (set_value_exec device ll_raw_request w c) ;
    [|exact Hr|lia|rewrite u16_bytes_length; lia].
  rewrite brightness_payload by lia. cbv zeta.
  destruct (ll_raw_request (ll_state (hdev w)) 2
              (request_frame EIZO_USAGE_BRIGHTNESS c [to_u16 parsed; 0]) 39
              HID_FEATURE_REPORT HID_REQ_SET_REPORT) as [[r resp] d'].
  destruct (r <? 0) eqn:Hr0.
  - rewrite Hr0. unfold bind, hid_err, emit, ret.
    cbn [hdev kmalloc_avail trace app]. rewrite <- app_assoc. reflexivity.
  - reflexivity.
Qed.

(** X9: a text that does not parse is refused with -EINVAL (also when
    the number is merely too large for 16 bits) and a value above 200
    with -EOVERFLOW, in both cases before the device is touched. *)
Theorem store_brightness_rejects
    (w : world device) (buf : string) (count res parsed : Z) :
  kstrtou16 buf 10 = (res, parsed) ->
  (res < 0 -> store_brightness buf count w = (Ret (- EINVAL), w)) /\
  (0 <= res -> 200 < to_u16 parsed ->
   store_brightness buf count w = (Ret (- EOVERFLOW), w)).
Proof.
  intros Hparse. split.
  - intros Hres. unfold eizo_attr_store_brightness. rewrite Hparse.
    apply Z.ltb_lt in Hres. now rewrite Hres.
  - intros Hres Hv. unfold eizo_attr_store_brightness. rewrite Hparse.
    apply Z.ltb_ge in Hres. rewrite Hres.
    assert (Hbig : (to_u16 parsed >? 200) = true)
      by (rewrite Z.gtb_ltb; apply Z.ltb_lt; lia).
    rewrite Hbig, orb_true_r. reflexivity.
Qed.

(** X10: an accepted value v (0..200) is written in one exchange: a
    single set-feature request for report 2 whose frame carries the
    brightness usage, the session counter and the payload v, 0 (the value
    low byte first, whatever the host byte order); when the transport
    accepts it the store returns [count]. *)
Theorem store_brightness_writes
    (w : world device) (c : Z) (buf : string) (count res parsed : Z)
    (r : Z) (resp : list Z) (d' : device) :
  kstrtou16 buf 10 = (res, parsed) -> 0 <= res -> to_u16 parsed <= 200 ->
  ready w c ->
  ll_raw_request (ll_state (hdev w)) 2
    (request_frame EIZO_USAGE_BRIGHTNESS c [to_u16 parsed; 0]) 39
    HID_FEATURE_REPORT HID_REQ_SET_REPORT = (r, resp, d') ->
  0 <= r ->
  store_brightness buf count w =
  (Ret count,
   mk_world (mk_hid_device (PTR (mk_eizo_data false c)) d') (kmalloc_avail w)
     (trace w ++
      [EvLock;
       EvRawRequest 2
         (request_frame EIZO_USAGE_BRIGHTNESS c [to_u16 parsed; 0]) 39
         HID_FEATURE_REPORT HID_REQ_SET_REPORT r;
       EvUnlock])).
Proof.
  intros Hparse Hres Hv Hr Hreq Hok.
  rewrite (store_brightness_exec w c buf count res parsed Hparse Hres Hv Hr).
  cbv zeta. rewrite Hreq. apply Z.ltb_ge in Hok. now rewrite Hok.
Qed.

(** X11: when the transport refuses the write, the store returns the
    transport's status unchanged, with the token released and the session
    ready for the next call; the failure is logged once by set and once
    by the store. *)
Theorem store_brightness_transport_failure
    (w : world device) (c : Z) (buf : string) (count res parsed : Z)
    (r : Z) (resp : list Z) (d' : device) :
  kstrtou16 buf 10 = (res, parsed) -> 0 <= res -> to_u16 parsed <= 200 ->
  ready w c ->
  ll_raw_request (ll_state (hdev w)) 2
    (request_frame EIZO_USAGE_BRIGHTNESS c [to_u16 parsed; 0]) 39
    HID_FEATURE_REPORT HID_REQ_SET_REPORT = (r, resp, d') ->
  r < 0 ->
  exists w',
    store_brightness buf count w = (Ret r, w') /\
    ready w' c /\
    trace w' =
      trace w ++
      [EvLock;
       EvRawRequest 2
         (request_frame EIZO_USAGE_BRIGHTNESS c [to_u16 parsed; 0]) 39
         HID_FEATURE_REPORT HID_REQ_SET_REPORT r;
       EvLog KERN_ERR "failed to set hid report: %d\n" [r];
       EvUnlock;
       EvLog KERN_ERR "failed to set %s value to %d, error %d\n"
         [cpu_to_le16 big_endian (to_u16 parsed); r]].
Proof.
  intros Hparse Hres Hv Hr Hreq Hfail.
  rewrite (store_brightness_exec w c buf count res parsed Hparse Hres Hv Hr).
  cbv zeta. rewrite Hreq. apply Z.ltb_lt in Hfail. rewrite Hfail.
  eexists. split; [reflexivity|]. split; [now apply ready_after|reflexivity].
Qed.

Lemma window_7_2 (resp : list Z) :
  (9 <= length resp)%nat ->
  firstn 2 (skipn 7 resp) = [nth 7 resp 0; nth 8 resp 0].
Proof.
  intros H. do 9 (destruct resp as [|? resp]; [simpl in H; lia|]).
  reflexivity.
Qed.

(** What a show does when both transport calls succeed. *)
Lemma show_brightness_exec
    (w : world device) (c garbage : Z) (buf : string)
    (r1 r2 : Z) (resp1 resp2 : list Z) (d1 d2 : device) :
  ready w c ->
  ll_raw_request (ll_state (hdev w)) 3
    (request_frame EIZO_USAGE_BRIGHTNESS c []) 39
    HID_FEATURE_REPORT HID_REQ_SET_REPORT = (r1, resp1, d1) ->
  0 <= r1 ->
  ll_raw_request d1 3
    (deposit resp1 (request_frame EIZO_USAGE_BRIGHTNESS c []) 39) 39
    HID_FEATURE_REPORT HID_REQ_GET_REPORT = (r2, resp2, d2) ->
  0 <= r2 ->
  (9 <= length resp2)%nat -> is_u8 (nth 7 resp2 0) -> is_u8 (nth 8 resp2 0) ->
  show_brightness garbage buf w =
  let text := sprintf_u_nl (nth 7 resp2 0 + 2 ^ 8 * nth 8 resp2 0) in
  (Ret (Z.of_nat (String.length text), text),
   mk_world (mk_hid_device (PTR (mk_eizo_data false c)) d2) (kmalloc_avail w)
     (trace w ++
      [EvLock;
       EvRawRequest 3 (request_frame EIZO_USAGE_BRIGHTNESS c []) 39
         HID_FEATURE_REPORT HID_REQ_SET_REPORT r1;
       EvRawRequest 3
         (deposit resp1 (request_frame EIZO_USAGE_BRIGHTNESS c []) 39) 39
         HID_FEATURE_REPORT HID_REQ_GET_REPORT r2;
       EvUnlock])).
Proof.
  intros Hr Harm H1 Hfetch H2 Hlen Hb0 Hb1.
  unfold eizo_attr_show_brightness, bind.
  rewrite (get_value_exec device ll_raw_request w c _ _ 2 Hr).
  cbv zeta. rewrite Harm.
  apply Z.ltb_ge in H1, H2. rewrite H1, Hfetch, H2.
  rewrite u16_bytes_length. cbn [Nat.leb andb].
  rewrite deposit_window by lia. rewrite window_7_2 by assumption.
  assert (Hblit : forall b0 b1 : Z,
             blit [b0; b1] (u16_bytes big_endian (to_u16 garbage)) 0 = [b0; b1])
    by (intros b0 b1; now destruct big_endian).
  rewrite Hblit. cbn [Z.ltb Z.compare].
  rewrite le16_to_cpu_of_bytes by assumption. reflexivity.
Qed.

(** X12: a show hides why the read failed.  Whatever negative status get
    returns, the show logs it and returns -ENODATA, and the page buffer
    is not written. *)
Theorem show_brightness_masks_failure
    (w w1 : world device) (garbage : Z) (buf : string) (r : Z) (value' : list Z) :
  eizo_get_value device ll_raw_request EIZO_USAGE_BRIGHTNESS
    (u16_bytes big_endian (to_u16 garbage)) 2 w = (Ret (r, value'), w1) ->
  r < 0 ->
  show_brightness garbage buf w =
  (Ret (- ENODATA, buf),
   mk_world (hdev w1) (kmalloc_avail w1)
     (trace w1 ++ [EvLog KERN_ERR "failed to get %s value, error %d\n" [r]])).
Proof.
  intros Hget Hneg.
  unfold eizo_attr_show_brightness, bind. rewrite Hget.
  apply Z.ltb_lt in Hneg. rewrite Hneg. reflexivity.
Qed.

(** X13: when both transport calls succeed, the show prints, in decimal
    and followed by a newline, the 16-bit little-endian number the fetch
    stored in bytes 7 and 8 of the frame (whatever the host byte order
    and whatever the local variable held before), and returns the length
    of that text. *)
Theorem show_brightness_prints_response
    (w : world device) (c garbage : Z) (buf : string)
    (r1 r2 : Z) (resp1 resp2 : list Z) (d1 d2 : device) :
  ready w c ->
  ll_raw_request (ll_state (hdev w)) 3
    (request_frame EIZO_USAGE_BRIGHTNESS c []) 39
    HID_FEATURE_REPORT HID_REQ_SET_REPORT = (r1, resp1, d1) ->
  0 <= r1 ->
  ll_raw_request d1 3
    (deposit resp1 (request_frame EIZO_USAGE_BRIGHTNESS c []) 39) 39
    HID_FEATURE_REPORT HID_REQ_GET_REPORT = (r2, resp2, d2) ->
  0 <= r2 ->
  (9 <= length resp2)%nat -> is_u8 (nth 7 resp2 0) -> is_u8 (nth 8 resp2 0) ->
  exists w',
    show_brightness garbage buf w =
    (Ret (Z.of_nat
            (String.length
               (sprintf_u_nl (nth 7 resp2 0 + 2 ^ 8 * nth 8 resp2 0))),
          sprintf_u_nl (nth 7 resp2 0 + 2 ^ 8 * nth 8 resp2 0)),
     w') /\
    ready w' c.
Proof.
  intros Hr Harm H1 Hfetch H2 Hlen Hb0 Hb1.
  rewrite (show_brightness_exec w c garbage buf r1 r2 resp1 resp2 d1 d2)
    by assumption.
  cbv zeta. eexists. split; [reflexivity|]. now apply ready_after.
Qed.

End BrightnessProperties.

(** X14: against the echoing monitor, a brightness that was stored reads
    back: after a store of a text that parses to v (at most 200), a show
    prints v in decimal followed by a newline, whatever the host byte
    order. *)
Theorem brightness_round_trip
    (kstrtou16 : string -> Z -> Z * Z) (big_endian : bool)
    (usage : Z) (w : world Echo.state) (c : Z)
    (buf page : string) (count res parsed garbage : Z) :
  kstrtou16 buf 10 = (res, parsed) -> 0 <= res -> to_u16 parsed <= 200 ->
  0 <= usage < 2 ^ 32 ->
  ready w c ->
  exists w1 w2,
    eizo_attr_store_brightness Echo.state Echo.raw_request usage kstrtou16
      big_endian buf count w = (Ret count, w1) /\
    eizo_attr_show_brightness Echo.state Echo.raw_request usage big_endian
      garbage page w1 =
    (Ret (Z.of_nat (String.length (sprintf_u_nl (to_u16 parsed))),
          sprintf_u_nl (to_u16 parsed)),
     w2).
Proof.
  intros Hparse Hres Hv Hu Hr.
  assert (Hrange := to_u16_range parsed).
  set (v := to_u16 parsed) in *.
  rewrite (store_brightness_exec Echo.state Echo.raw_request usage kstrtou16
             big_endian w c buf count res parsed Hparse Hres Hv Hr).
  cbv zeta. fold v.
  cbn [Echo.raw_request Z.eqb Pos.eqb Z.of_nat Pos.of_succ_nat Pos.succ Z.ltb
       Z.compare].
  eexists. eexists. split; [reflexivity|].
  assert (Hset : frame_usage (request_frame usage c [v; 0]) = usage)
    by (now apply frame_usage_header).
  assert (Harmed : frame_usage (frame_header usage c) = usage)
    by (rewrite <- (app_nil_r (frame_header usage c));
        now apply frame_usage_header).
  erewrite (show_brightness_exec Echo.state Echo.raw_request usage big_endian
              _ c garbage page 39 39 []
              (request_frame usage c [v; 0])).
  - cbv zeta. unfold request_frame, frame_header. cbn [app nth].
    rewrite Z.mul_0_r, Z.add_0_r. reflexivity.
  - now apply ready_after.
  - reflexivity.
  - discriminate.
  - cbn [hdev ll_state Echo.raw_request Z.eqb Pos.eqb Z.of_nat Pos.of_succ_nat
         Pos.succ Echo.settings Echo.armed].
    rewrite request_frame_header, Harmed, Hset, Z.eqb_refl.
    rewrite frame_payload_request by (simpl; lia).
    reflexivity.
  - discriminate.
  - rewrite request_frame_length; simpl; lia.
  - unfold request_frame, frame_header. cbn [app nth]. unfold is_u8. lia.
  - unfold request_frame, frame_header. cbn [app nth]. unfold is_u8. lia.
Qed.

(** ** Binding and unbinding *)

Ltac run_lifecycle :=
  cbv beta iota zeta delta
    [bind ret raise emit hid_err hid_get_drvdata set_driver_data set_ll_state
     core_status core_void hid_set_drvdata eizo_data_init_at_drvdata
     eizo_data_uninit_at_drvdata eizo_data_init eizo_data_uninit
     hdev ll_state driver_data kmalloc_avail trace lock counter].

Section LifecycleProperties.

Variable device : Type.
Variable core_hid_parse : device -> Z * device.
Variable core_hid_hw_start : device -> Z -> Z * device.
Variable core_hid_hw_stop : device -> device.
Variable core_hid_hw_open : device -> Z * device.
Variable core_hid_hw_close : device -> device.
Variable core_sysfs_create_group : device -> Z * device.
Variable sizeof_eizo_data : nat.

Abbreviation probe :=
  (eizo_hid_driver_probe device core_hid_parse core_hid_hw_start
     core_hid_hw_stop core_hid_hw_open core_hid_hw_close
     core_sysfs_create_group sizeof_eizo_data).

(** Probe, step by step, when the session object can be allocated. *)
Lemma probe_exec (w : world device) :
  (sizeof_eizo_data <= kmalloc_avail w)%nat ->
  probe w =
  let avail := (kmalloc_avail w - sizeof_eizo_data)%nat in
  let fresh := PTR (mk_eizo_data false 1) in
  let '(r1, d1) := core_hid_parse (ll_state (hdev w)) in
  if r1 <? 0 then
    (Ret r1,
     mk_world (mk_hid_device (driver_data (hdev w)) d1) avail
       (trace w ++ [EvLog KERN_ERR "hid_parse failed\n" []]))
  else
  let '(r2, d2) := core_hid_hw_start d1 HID_CONNECT_HIDRAW in
  if r2 <? 0 then
    (Ret r2,
     mk_world (mk_hid_device (driver_data (hdev w)) d2) avail
       (trace w ++ [EvLog KERN_ERR "hid_hw_start failed\n" []]))
  else
  let '(r3, d3) := core_hid_hw_open d2 in
  if r3 <? 0 then
    (Ret r3,
     mk_world (mk_hid_device fresh (core_hid_hw_stop d3)) avail
       (trace w ++ [EvLog KERN_ERR "hid_hw_open failed\n" []]))
  else
  let '(r4, d4) := core_sysfs_create_group d3 in
  if r4 <? 0 then
    (Ret r4,
     mk_world (mk_hid_device fresh (core_hid_hw_stop (core_hid_hw_close d4)))
       avail
       (trace w ++ [EvLog KERN_ERR "sysfs_create_group failed\n" []]))
  else
    (Ret 0, mk_world (mk_hid_device fresh d4) avail (trace w)).
Proof.
  intros Ha.
  destruct w as [[dd dev] avail tr]. cbn [hdev ll_state kmalloc_avail] in *.
  apply Nat.leb_le in Ha.
  unfold eizo_hid_driver_probe, devm_kzalloc_data. run_lifecycle.
  rewrite Ha. cbn [IS_ERR].
  destruct (core_hid_parse dev) as [r1 d1].
  destruct (r1 <? 0); [reflexivity|].
  destruct (core_hid_hw_start d1 HID_CONNECT_HIDRAW) as [r2 d2].
  destruct (r2 <? 0); [reflexivity|].
  destruct (core_hid_hw_open d2) as [r3 d3].
  destruct (r3 <? 0); [reflexivity|].
  destruct (core_sysfs_create_group d3) as [r4 d4].
  destruct (r4 <? 0); reflexivity.
Qed.

(** Probe when the session object cannot be allocated: the NULL that
    [devm_kzalloc] yields passes the [IS_ERR] test. *)
Lemma probe_exec_no_memory (w : world device) :
  (kmalloc_avail w < sizeof_eizo_data)%nat ->
  probe w =
  let '(r1, d1) := core_hid_parse (ll_state (hdev w)) in
  if r1 <? 0 then
    (Ret r1,
     mk_world (mk_hid_device (driver_data (hdev w)) d1) (kmalloc_avail w)
       (trace w ++ [EvLog KERN_ERR "hid_parse failed\n" []]))
  else
  let '(r2, d2) := core_hid_hw_start d1 HID_CONNECT_HIDRAW in
  if r2 <? 0 then
    (Ret r2,
     mk_world (mk_hid_device (driver_data (hdev w)) d2) (kmalloc_avail w)
       (trace w ++ [EvLog KERN_ERR "hid_hw_start failed\n" []]))
  else
    (Fault BadPointer,
     mk_world (mk_hid_device NULL d2) (kmalloc_avail w) (trace w)).
Proof.
  intros Ha.
  destruct w as [[dd dev] avail tr]. cbn [hdev ll_state kmalloc_avail] in *.
  apply Nat.leb_gt in Ha.
  unfold eizo_hid_driver_probe, devm_kzalloc_data. run_lifecycle.
  rewrite Ha. cbn [IS_ERR].
  destruct (core_hid_parse dev) as [r1 d1].
  destruct (r1 <? 0); [reflexivity|].
  destruct (core_hid_hw_start d1 HID_CONNECT_HIDRAW) as [r2 d2].
  destruct (r2 <? 0); reflexivity.
Qed.

(** X15: when the session object can be allocated and parsing, starting,
    opening and the sysfs group all succeed, probe returns 0 and leaves
    an initialised session installed as driver data: token free, sequence
    counter 1.  The world it leaves is a starting point of the protocol,
    whatever the transport, and no log line is written. *)
Theorem probe_installs_session
    (w : world device) (r1 r2 r3 r4 : Z) (d1 d2 d3 d4 : device) :
  (sizeof_eizo_data <= kmalloc_avail w)%nat ->
  core_hid_parse (ll_state (hdev w)) = (r1, d1) -> 0 <= r1 ->
  core_hid_hw_start d1 HID_CONNECT_HIDRAW = (r2, d2) -> 0 <= r2 ->
  core_hid_hw_open d2 = (r3, d3) -> 0 <= r3 ->
  core_sysfs_create_group d3 = (r4, d4) -> 0 <= r4 ->
  probe w =
  (Ret 0,
   mk_world (mk_hid_device (PTR (mk_eizo_data false 1)) d4)
     (kmalloc_avail w - sizeof_eizo_data) (trace w)) /\
  forall ll_raw_request,
    reachable ll_raw_request
      (mk_world (mk_hid_device (PTR (mk_eizo_data false 1)) d4)
         (kmalloc_avail w - sizeof_eizo_data) (trace w)).
Proof.
  intros Ha Hp H1 Hs H2 Ho H3 Hc H4.
  split.
  - rewrite (probe_exec w Ha). cbv zeta.
    apply Z.ltb_ge in H1, H2, H3, H4.
    now rewrite Hp, H1, Hs, H2, Ho, H3, Hc, H4.
  - intros ll. exact (reach_init ll (mk_eizo_data false 0) d4 _ _).
Qed.

(** X16: a probe that fails after the session was installed leaves it
    installed: when opening or the sysfs group fails, the hardware is
    stopped (after a close, for the sysfs group) and the status is
    returned, but the driver data still points at the session object. *)
Theorem probe_failure_keeps_driver_data
    (w : world device) (r1 r2 r3 r4 : Z) (d1 d2 d3 d4 : device) :
  (sizeof_eizo_data <= kmalloc_avail w)%nat ->
  core_hid_parse (ll_state (hdev w)) = (r1, d1) -> 0 <= r1 ->
  core_hid_hw_start d1 HID_CONNECT_HIDRAW = (r2, d2) -> 0 <= r2 ->
  core_hid_hw_open d2 = (r3, d3) ->
  core_sysfs_create_group d3 = (r4, d4) ->
  (r3 < 0 ->
   exists w', probe w = (Ret r3, w') /\
              driver_data (hdev w') = PTR (mk_eizo_data false 1) /\
              ll_state (hdev w') = core_hid_hw_stop d3) /\
  (0 <= r3 -> r4 < 0 ->
   exists w', probe w = (Ret r4, w') /\
              driver_data (hdev w') = PTR (mk_eizo_data false 1) /\
              ll_state (hdev w') = core_hid_hw_stop (core_hid_hw_close d4)).
Proof.
  intros Ha Hp H1 Hs H2 Ho Hc.
  rewrite (probe_exec w Ha). cbv zeta.
  apply Z.ltb_ge in H1, H2. rewrite Hp, H1, Hs, H2, Ho.
  split.
  - intros H3. apply Z.ltb_lt in H3. rewrite H3. eauto.
  - intros H3 H4. apply Z.ltb_ge in H3. apply Z.ltb_lt in H4.
    rewrite H3, Hc, H4. eauto.
Qed.

(** X17: when the session object cannot be allocated, probe does not
    return -ENOMEM.  It carries on with the null pointer: if parsing and
    starting succeed it installs NULL as driver data and runs
    [eizo_data_init] through it, with the hardware started and never
    stopped. *)
Theorem probe_allocation_failure
    (w : world device) (r1 r2 : Z) (d1 d2 : device) :
  (kmalloc_avail w < sizeof_eizo_data)%nat ->
  core_hid_parse (ll_state (hdev w)) = (r1, d1) -> 0 <= r1 ->
  core_hid_hw_start d1 HID_CONNECT_HIDRAW = (r2, d2) -> 0 <= r2 ->
  probe w =
  (Fault BadPointer,
   mk_world (mk_hid_device NULL d2) (kmalloc_avail w) (trace w)).
Proof.
  intros Ha Hp H1 Hs H2.
  rewrite (probe_exec_no_memory w Ha).
  apply Z.ltb_ge in H1, H2. now rewrite Hp, H1, Hs, H2.
Qed.

End LifecycleProperties.

Lemma recorder_probe_exec (s : Recorder.state) (size avail : nat) :
  (size <= avail)%nat ->
  Recorder.probe size (Recorder.unbound s avail) =
  let fresh := PTR (mk_eizo_data false 1) in
  let log := fun (c : list Recorder.call) =>
    Recorder.mk_state (Recorder.parse_status s) (Recorder.start_status s)
      (Recorder.open_status s) (Recorder.create_status s)
      (Recorder.calls s ++ c) in
  if Recorder.parse_status s <? 0 then
    (Ret (Recorder.parse_status s),
     mk_world (mk_hid_device NULL (log [Recorder.HidParse])) (avail - size)
       [EvLog KERN_ERR "hid_parse failed\n" []])
  else if Recorder.start_status s <? 0 then
    (Ret (Recorder.start_status s),
     mk_world
       (mk_hid_device NULL (log [Recorder.HidParse; Recorder.HidHwStart 4]))
       (avail - size)
       [EvLog KERN_ERR "hid_hw_start failed\n" []])
  else if Recorder.open_status s <? 0 then
    (Ret (Recorder.open_status s),
     mk_world
       (mk_hid_device fresh
          (log [Recorder.HidParse; Recorder.HidHwStart 4; Recorder.HidHwOpen;
                Recorder.HidHwStop]))
       (avail - size)
       [EvLog KERN_ERR "hid_hw_open failed\n" []])
  else if Recorder.create_status s <? 0 then
    (Ret (Recorder.create_status s),
     mk_world
       (mk_hid_device fresh
          (log [Recorder.HidParse; Recorder.HidHwStart 4; Recorder.HidHwOpen;
                Recorder.SysfsCreateGroup; Recorder.HidHwClose;
                Recorder.HidHwStop]))
       (avail - size)
       [EvLog KERN_ERR "sysfs_create_group failed\n" []])
  else
    (Ret 0,
     mk_world
       (mk_hid_device fresh
          (log [Recorder.HidParse; Recorder.HidHwStart 4; Recorder.HidHwOpen;
                Recorder.SysfsCreateGroup]))
       (avail - size) []).
Proof.
  intros Ha. unfold Recorder.probe.
  rewrite probe_exec by exact Ha.
  destruct s as [ps ss os cs called].
  cbv zeta.
  cbn [Recorder.unbound hdev ll_state driver_data kmalloc_avail trace
       Recorder.hid_parse Recorder.hid_hw_start Recorder.hid_hw_open
       Recorder.sysfs_create_group Recorder.hid_hw_stop Recorder.hid_hw_close
       Recorder.record Recorder.parse_status Recorder.start_status
       Recorder.open_status Recorder.create_status Recorder.calls app].
  change HID_CONNECT_HIDRAW with 4.
  destruct (ps <? 0); [|destruct (ss <? 0); [|destruct (os <? 0);
    [|destruct (cs <? 0)]]];
    unfold Recorder.hid_hw_stop, Recorder.hid_hw_close, Recorder.record;
    cbn [Recorder.parse_status Recorder.start_status Recorder.open_status
         Recorder.create_status Recorder.calls];
    rewrite <- ?app_assoc; reflexivity.
Qed.

(** X18: how probe unwinds, seen by a HID core that records what is
    called.  Probe returns the status of the first service that fails and
    0 when none does; a failed parse or start is followed by nothing, a
    failed open by a stop, a failed sysfs group by a close and then a
    stop. *)
Theorem probe_unwinds_in_order (ps ss os cs : Z) (size avail : nat) :
  (size <= avail)%nat ->
  let run :=
    Recorder.probe size
      (Recorder.unbound (Recorder.mk_state ps ss os cs []) avail) in
  let called := Recorder.calls (ll_state (hdev (snd run))) in
  (ps < 0 -> fst run = Ret ps /\ called = [Recorder.HidParse]) /\
  (0 <= ps -> ss < 0 ->
   fst run = Ret ss /\
   called = [Recorder.HidParse; Recorder.HidHwStart 4]) /\
  (0 <= ps -> 0 <= ss -> os < 0 ->
   fst run = Ret os /\
   called = [Recorder.HidParse; Recorder.HidHwStart 4; Recorder.HidHwOpen;
             Recorder.HidHwStop]) /\
  (0 <= ps -> 0 <= ss -> 0 <= os -> cs < 0 ->
   fst run = Ret cs /\
   called = [Recorder.HidParse; Recorder.HidHwStart 4; Recorder.HidHwOpen;
             Recorder.SysfsCreateGroup; Recorder.HidHwClose;
             Recorder.HidHwStop]) /\
  (0 <= ps -> 0 <= ss -> 0 <= os -> 0 <= cs ->
   fst run = Ret 0 /\
   called = [Recorder.HidParse; Recorder.HidHwStart 4; Recorder.HidHwOpen;
             Recorder.SysfsCreateGroup]).
Proof.
  intros Ha run called. subst called run.
  rewrite (recorder_probe_exec _ size avail Ha). cbv zeta.
  cbn [Recorder.parse_status Recorder.start_status Recorder.open_status
       Recorder.create_status Recorder.calls app].
  destruct (ps <? 0) eqn:Hp;
    [apply Z.ltb_lt in Hp|apply Z.ltb_ge in Hp].
  { repeat split; intros; try lia; reflexivity. }
  destruct (ss <? 0) eqn:Hs;
    [apply Z.ltb_lt in Hs|apply Z.ltb_ge in Hs].
  { repeat split; intros; try lia; reflexivity. }
  destruct (os <? 0) eqn:Ho;
    [apply Z.ltb_lt in Ho|apply Z.ltb_ge in Ho].
  { repeat split; intros; try lia; reflexivity. }
  destruct (cs <? 0) eqn:Hc;
    [apply Z.ltb_lt in Hc|apply Z.ltb_ge in Hc].
  { repeat split; intros; try lia; reflexivity. }
  repeat split; intros; try lia; reflexivity.
Qed.

(** X19: probe and remove pair up.  After a probe that succeeded, remove
    takes down what probe set up in the reverse order (sysfs group,
    close, stop) and leaves the session object installed as driver
    data. *)
Theorem remove_undoes_probe (ps ss os cs : Z) (size avail : nat) :
  (size <= avail)%nat ->
  0 <= ps -> 0 <= ss -> 0 <= os -> 0 <= cs ->
  exists w1 w2,
    Recorder.probe size
      (Recorder.unbound (Recorder.mk_state ps ss os cs []) avail)
    = (Ret 0, w1) /\
    Recorder.remove w1 = (Ret tt, w2) /\
    Recorder.calls (ll_state (hdev w2)) =
      [Recorder.HidParse; Recorder.HidHwStart 4; Recorder.HidHwOpen;
       Recorder.SysfsCreateGroup;
       Recorder.SysfsRemoveGroup; Recorder.HidHwClose; Recorder.HidHwStop] /\
    driver_data (hdev w2) = PTR (mk_eizo_data false 1).
Proof.
  intros Ha Hp Hs Ho Hc.
  rewrite (recorder_probe_exec _ size avail Ha). cbv zeta.
  cbn [Recorder.parse_status Recorder.start_status Recorder.open_status
       Recorder.create_status Recorder.calls app].
  apply Z.ltb_ge in Hp, Hs, Ho, Hc. rewrite Hp, Hs, Ho, Hc.
  eexists. eexists. split; [reflexivity|].
  split; [reflexivity|]. split; reflexivity.
Qed.

(** ** Concrete instances of the further properties *)

Lemma status_never_positive_witness :
  let run_set :=
    eizo_set_value Echo.state Echo.raw_request 1 [170; 187] 2 echo_bench in
  let run_get :=
    eizo_get_value unit Unplugged.raw_request 1 [7; 7] 2 unplugged_bench in
  (run_set = (Ret 0, snd run_set) /\ 0 <= 0) /\
  (run_get = (Ret (- ENODEV, [7; 7]), snd run_get) /\ - ENODEV <= 0).
Proof.
  intros run_set run_get. split.
  - split; [reflexivity|].
    exact (proj1 (status_never_positive Echo.state Echo.raw_request echo_bench
                    1 [170; 187] 2) 0 (snd run_set) eq_refl).
  - split; [reflexivity|].
    exact (proj2 (status_never_positive unit Unplugged.raw_request
                    unplugged_bench 1 [7; 7] 2)
             (- ENODEV) [7; 7] (snd run_get) eq_refl).
Defined.

Lemma frame_always_freed_witness :
  let run_set :=
    eizo_set_value Echo.state Echo.raw_request 1 [170; 187] 2 echo_bench in
  let run_get :=
    eizo_get_value unit Unplugged.raw_request 1 [7; 7] 2 unplugged_bench in
  (run_set = (Ret 0, snd run_set) /\
   kmalloc_avail (snd run_set) = kmalloc_avail echo_bench) /\
  (run_get = (Ret (- ENODEV, [7; 7]), snd run_get) /\
   kmalloc_avail (snd run_get) = kmalloc_avail unplugged_bench).
Proof.
  intros run_set run_get. split.
  - split; [reflexivity|].
    exact (proj1 (frame_always_freed Echo.state Echo.raw_request echo_bench
                    1 [170; 187] 2) 0 (snd run_set) eq_refl).
  - split; [reflexivity|].
    exact (proj2 (frame_always_freed unit Unplugged.raw_request
                    unplugged_bench 1 [7; 7] 2)
             (- ENODEV, [7; 7]) (snd run_get) eq_refl).
Defined.

Lemma get_delivers_response_bytes_witness :
  let arm :=
    Echo.raw_request Echo.init 3 (request_frame 1 1 []) 39
      HID_FEATURE_REPORT HID_REQ_SET_REPORT in
  let fetch :=
    Echo.raw_request (snd arm) 3
      (deposit (snd (fst arm)) (request_frame 1 1 []) 39) 39
      HID_FEATURE_REPORT HID_REQ_GET_REPORT in
  ready echo_bench 1 /\ 0 <= fst (fst arm) /\ 0 <= fst (fst fetch) /\
  (2 <= 32)%nat /\ (2 <= length [9; 9; 9])%nat /\
  (7 + 2 <= length (snd (fst fetch)))%nat /\
  fst (eizo_get_value Echo.state Echo.raw_request 1 [9; 9; 9] 2 echo_bench)
  = Ret (0, [0; 0; 9]).
Proof.
  intros arm fetch.
  assert (H1 : 0 <= fst (fst arm)) by discriminate.
  assert (H2 : 0 <= fst (fst fetch)) by discriminate.
  assert (H3 : (2 <= 32)%nat) by (apply Nat.leb_le; reflexivity).
  assert (H4 : (2 <= length [9; 9; 9])%nat) by (apply Nat.leb_le; reflexivity).
  assert (H5 : (7 + 2 <= length (snd (fst fetch)))%nat)
    by (apply Nat.leb_le; reflexivity).
  repeat (split; [first [exact echo_bench_ready|assumption]|]).
  rewrite (get_delivers_response_bytes Echo.state Echo.raw_request echo_bench
             1 1 [9; 9; 9] 2
             (fst (fst arm)) (fst (fst fetch))
             (snd (fst arm)) (snd (fst fetch)) (snd arm) (snd fetch)
             echo_bench_ready eq_refl H1 eq_refl H2 H3 H4 H5).
  reflexivity.
Defined.

Lemma held_token_blocks_witness :
  session_locked echo_bench_held = true /\
  (exists w',
      eizo_set_value Echo.state Echo.raw_request 1 [170; 187] 2 echo_bench_held
      = (Blocked, w') /\
      trace w' = trace echo_bench_held /\ hdev w' = hdev echo_bench_held) /\
  (exists w',
      eizo_get_value Echo.state Echo.raw_request 1 [0; 0] 2 echo_bench_held
      = (Blocked, w') /\
      trace w' = trace echo_bench_held /\ hdev w' = hdev echo_bench_held).
Proof.
  split; [reflexivity|].
  split.
  - exact (proj1 (held_token_blocks Echo.state Echo.raw_request
                    echo_bench_held 1 [170; 187] 2 eq_refl)).
  - exact (proj2 (held_token_blocks Echo.state Echo.raw_request
                    echo_bench_held 1 [0; 0] 2 eq_refl)).
Defined.

Lemma error_session_reported_witness :
  IS_ERR (driver_data (hdev echo_bench_error)) = true /\
  eizo_set_value Echo.state Echo.raw_request 1 [170; 187] 2 echo_bench_error
  = (Ret (- ENODATA), echo_bench_error) /\
  eizo_get_value Echo.state Echo.raw_request 1 [170; 187] 2 echo_bench_error
  = (Ret (- ENODATA, [170; 187]),
     mk_world (hdev echo_bench_error) (kmalloc_avail echo_bench_error)
       (trace echo_bench_error ++
        [EvLog KERN_ERR "failed to get eizo_data\n" []])).
Proof.
  split; [reflexivity|].
  exact (error_session_reported Echo.state Echo.raw_request echo_bench_error
           1 [170; 187] 2 eq_refl).
Defined.

Lemma null_session_not_reported_witness :
  driver_data (hdev echo_bench_unbound) = NULL /\
  (exists w',
      eizo_set_value Echo.state Echo.raw_request 1 [170; 187] 2
        echo_bench_unbound = (Fault BadPointer, w') /\
      trace w' = trace echo_bench_unbound) /\
  (exists w',
      eizo_get_value Echo.state Echo.raw_request 1 [170; 187] 2
        echo_bench_unbound = (Fault BadPointer, w') /\
      trace w' = trace echo_bench_unbound).
Proof.
  split; [reflexivity|].
  exact (null_session_not_reported Echo.state Echo.raw_request
           echo_bench_unbound 1 [170; 187] 2 eq_refl).
Defined.

Lemma raw_event_short_report_witness :
  (2 = 2 \/ 2 = 3) /\ (length [5; 1; 0] < 11)%nat /\
  eizo_hid_driver_raw_event Echo.state 2 [5; 1; 0] 39 echo_bench
  = (Fault OutOfBounds, echo_bench).
Proof.
  assert (Hl : (length [5; 1; 0] < 11)%nat) by (apply Nat.ltb_lt; reflexivity).
  split; [left; reflexivity|]. split; [exact Hl|].
  exact (raw_event_short_report echo_bench 2 [5; 1; 0] 39
           (or_introl eq_refl) Hl).
Defined.

Lemma raw_event_reads_request_layout_witness :
  (3 = 2 \/ 3 = 3) /\ 0 <= 305419896 < 2 ^ 32 /\ 0 <= 1 < 2 ^ 16 /\
  Forall is_u8 [42; 1; 0; 0] /\ (4 <= length [42; 1; 0; 0] <= 32)%nat /\
  eizo_hid_driver_raw_event Echo.state 3
    (request_frame 305419896 1 [42; 1; 0; 0]) 39 echo_bench =
  (Ret 0,
   mk_world (hdev echo_bench) (kmalloc_avail echo_bench)
     (trace echo_bench ++
      [EvLog KERN_INFO "event %d: %08x %04x %08x\n" [0; 305419896; 1; 298]])).
Proof.
  assert (Hu : 0 <= 305419896 < 2 ^ 32) by (split; [discriminate|reflexivity]).
  assert (Hc : 0 <= 1 < 2 ^ 16) by (split; [discriminate|reflexivity]).
  assert (Hb : Forall is_u8 [42; 1; 0; 0])
    by (repeat constructor; discriminate).
  assert (Hl : (4 <= length [42; 1; 0; 0] <= 32)%nat)
    by (split; apply Nat.leb_le; reflexivity).
  split; [right; reflexivity|]. split; [exact Hu|]. split; [exact Hc|].
  split; [exact Hb|]. split; [exact Hl|].
  exact (raw_event_reads_request_layout echo_bench 3 305419896 1 [42; 1; 0; 0]
           39 (or_intror eq_refl) Hu Hc Hb Hl).
Defined.

Lemma store_brightness_rejects_witness :
  (Kstrtox.kstrtou16 "bright" 10 = (- EINVAL, 0) /\ - EINVAL < 0 /\
   eizo_attr_store_brightness Echo.state Echo.raw_request 16 Kstrtox.kstrtou16
     false "bright" 6 echo_bench = (Ret (- EINVAL), echo_bench)) /\
  (Kstrtox.kstrtou16 "70000" 10 = (- Kstrtox.ERANGE, 0) /\
   - Kstrtox.ERANGE < 0 /\
   eizo_attr_store_brightness Echo.state Echo.raw_request 16 Kstrtox.kstrtou16
     false "70000" 5 echo_bench = (Ret (- EINVAL), echo_bench)) /\
  (Kstrtox.kstrtou16 "201" 10 = (0, 201) /\ 0 <= 0 /\ 200 < to_u16 201 /\
   eizo_attr_store_brightness Echo.state Echo.raw_request 16 Kstrtox.kstrtou16
     false "201" 3 echo_bench = (Ret (- EOVERFLOW), echo_bench)).
Proof.
  split; [|split].
  - split; [reflexivity|]. split; [reflexivity|].
    exact (proj1 (store_brightness_rejects Echo.state Echo.raw_request 16
                    Kstrtox.kstrtou16 false echo_bench "bright" 6
                    (- EINVAL) 0 eq_refl) eq_refl).
  - split; [reflexivity|]. split; [reflexivity|].
    exact (proj1 (store_brightness_rejects Echo.state Echo.raw_request 16
                    Kstrtox.kstrtou16 false echo_bench "70000" 5
                    (- Kstrtox.ERANGE) 0 eq_refl) eq_refl).
  - assert (H0 : 0 <= 0) by discriminate.
    assert (Hv : 200 < to_u16 201) by reflexivity.
    split; [reflexivity|]. split; [exact H0|]. split; [exact Hv|].
    exact (proj2 (store_brightness_rejects Echo.state Echo.raw_request 16
                    Kstrtox.kstrtou16 false echo_bench "201" 3
                    0 201 eq_refl) H0 Hv).
Defined.

Lemma store_brightness_writes_witness :
  let req :=
    Echo.raw_request Echo.init 2 (request_frame 16 1 [to_u16 120; 0]) 39
      HID_FEATURE_REPORT HID_REQ_SET_REPORT in
  Kstrtox.kstrtou16 "120" 10 = (0, 120) /\ 0 <= 0 /\ to_u16 120 <= 200 /\
  ready echo_bench 1 /\ 0 <= fst (fst req) /\
  eizo_attr_store_brightness Echo.state Echo.raw_request 16 Kstrtox.kstrtou16
    true "120" 3 echo_bench =
  (Ret 3,
   mk_world (mk_hid_device (PTR (mk_eizo_data false 1)) (snd req))
     (kmalloc_avail echo_bench)
     (trace echo_bench ++
      [EvLock;
       EvRawRequest 2 (request_frame 16 1 [to_u16 120; 0]) 39
         HID_FEATURE_REPORT HID_REQ_SET_REPORT (fst (fst req));
       EvUnlock])).
Proof.
  intros req.
  assert (H0 : 0 <= 0) by discriminate.
  assert (Hv : to_u16 120 <= 200) by discriminate.
  assert (Hr : 0 <= fst (fst req)) by discriminate.
  split; [reflexivity|]. split; [exact H0|]. split; [exact Hv|].
  split; [exact echo_bench_ready|]. split; [exact Hr|].
  exact (store_brightness_writes Echo.state Echo.raw_request 16
           Kstrtox.kstrtou16 true echo_bench 1 "120" 3 0 120
           (fst (fst req)) (snd (fst req)) (snd req)
           eq_refl H0 Hv echo_bench_ready eq_refl Hr).
Defined.

Lemma store_brightness_transport_failure_witness :
  Kstrtox.kstrtou16 "120" 10 = (0, 120) /\ 0 <= 0 /\ to_u16 120 <= 200 /\
  ready unplugged_bench 1 /\ - ENODEV < 0 /\
  exists w',
    eizo_attr_store_brightness unit Unplugged.raw_request 16 Kstrtox.kstrtou16
      false "120" 3 unplugged_bench = (Ret (- ENODEV), w') /\
    ready w' 1 /\
    trace w' =
      trace unplugged_bench ++
      [EvLock;
       EvRawRequest 2 (request_frame 16 1 [to_u16 120; 0]) 39
         HID_FEATURE_REPORT HID_REQ_SET_REPORT (- ENODEV);
       EvLog KERN_ERR "failed to set hid report: %d\n" [- ENODEV];
       EvUnlock;
       EvLog KERN_ERR "failed to set %s value to %d, error %d\n"
         [cpu_to_le16 false (to_u16 120); - ENODEV]].
Proof.
  assert (H0 : 0 <= 0) by discriminate.
  assert (Hv : to_u16 120 <= 200) by discriminate.
  assert (Hf : - ENODEV < 0) by reflexivity.
  split; [reflexivity|]. split; [exact H0|]. split; [exact Hv|].
  split; [exact unplugged_bench_ready|]. split; [exact Hf|].
  exact (store_brightness_transport_failure unit Unplugged.raw_request 16
           Kstrtox.kstrtou16 false unplugged_bench 1 "120" 3 0 120
           (- ENODEV) [] tt
           eq_refl H0 Hv unplugged_bench_ready eq_refl Hf).
Defined.

Lemma show_brightness_masks_failure_witness :
  let run :=
    eizo_get_value unit Unplugged.raw_request 16
      (u16_bytes false (to_u16 77)) 2 unplugged_bench in
  run = (Ret (- ENODEV, [77; 0]), snd run) /\ - ENODEV < 0 /\
  eizo_attr_show_brightness unit Unplugged.raw_request 16 false 77 "stale"
    unplugged_bench =
  (Ret (- ENODATA, "stale"),
   mk_world (hdev (snd run)) (kmalloc_avail (snd run))
     (trace (snd run) ++
      [EvLog KERN_ERR "failed to get %s value, error %d\n" [- ENODEV]])).
Proof.
  intros run.
  assert (Hf : - ENODEV < 0) by reflexivity.
  split; [reflexivity|]. split; [exact Hf|].
  exact (show_brightness_masks_failure unit Unplugged.raw_request 16 false
           unplugged_bench (snd run) 77 "stale" (- ENODEV) [77; 0]
           eq_refl Hf).
Defined.

Lemma show_brightness_prints_response_witness :
  let arm :=
    Echo.raw_request Echo.init 3 (request_frame 16 1 []) 39
      HID_FEATURE_REPORT HID_REQ_SET_REPORT in
  let fetch :=
    Echo.raw_request (snd arm) 3
      (deposit (snd (fst arm)) (request_frame 16 1 []) 39) 39
      HID_FEATURE_REPORT HID_REQ_GET_REPORT in
  ready echo_bench 1 /\ 0 <= fst (fst arm) /\ 0 <= fst (fst fetch) /\
  (9 <= length (snd (fst fetch)))%nat /\
  is_u8 (nth 7 (snd (fst fetch)) 0) /\ is_u8 (nth 8 (snd (fst fetch)) 0) /\
  exists w',
    eizo_attr_show_brightness Echo.state Echo.raw_request 16 true 77 ""
      echo_bench =
    (Ret (Z.of_nat
            (String.length
               (sprintf_u_nl (nth 7 (snd (fst fetch)) 0 +
                              2 ^ 8 * nth 8 (snd (fst fetch)) 0))),
          sprintf_u_nl (nth 7 (snd (fst fetch)) 0 +
                        2 ^ 8 * nth 8 (snd (fst fetch)) 0)),
     w') /\
    ready w' 1.
Proof.
  intros arm fetch.
  assert (H1 : 0 <= fst (fst arm)) by discriminate.
  assert (H2 : 0 <= fst (fst fetch)) by discriminate.
  assert (H3 : (9 <= length (snd (fst fetch)))%nat)
    by (apply Nat.leb_le; reflexivity).
  assert (H4 : is_u8 (nth 7 (snd (fst fetch)) 0))
    by (split; [discriminate|reflexivity]).
  assert (H5 : is_u8 (nth 8 (snd (fst fetch)) 0))
    by (split; [discriminate|reflexivity]).
  repeat (split; [first [exact echo_bench_ready|assumption]|]).
  exact (show_brightness_prints_response Echo.state Echo.raw_request 16 true
           echo_bench 1 77 ""
           (fst (fst arm)) (fst (fst fetch))
           (snd (fst arm)) (snd (fst fetch)) (snd arm) (snd fetch)
           echo_bench_ready eq_refl H1 eq_refl H2 H3 H4 H5).
Defined.

Lemma brightness_round_trip_witness :
  Kstrtox.kstrtou16 "120" 10 = (0, 120) /\ 0 <= 0 /\ to_u16 120 <= 200 /\
  0 <= 16 < 2 ^ 32 /\ ready echo_bench 1 /\
  exists w1 w2,
    eizo_attr_store_brightness Echo.state Echo.raw_request 16 Kstrtox.kstrtou16
      true "120" 3 echo_bench = (Ret 3, w1) /\
    eizo_attr_show_brightness Echo.state Echo.raw_request 16 true 77 "" w1 =
    (Ret (Z.of_nat (String.length (sprintf_u_nl (to_u16 120))),
          sprintf_u_nl (to_u16 120)),
     w2).
Proof.
  assert (H0 : 0 <= 0) by discriminate.
  assert (Hv : to_u16 120 <= 200) by discriminate.
  assert (Hu : 0 <= 16 < 2 ^ 32) by (split; [discriminate|reflexivity]).
  split; [reflexivity|]. split; [exact H0|]. split; [exact Hv|].
  split; [exact Hu|]. split; [exact echo_bench_ready|].
  exact (brightness_round_trip Kstrtox.kstrtou16 true 16 echo_bench 1
           "120" "" 3 0 120 77 eq_refl H0 Hv Hu echo_bench_ready).
Defined.

Lemma probe_installs_session_witness :
  let s := Recorder.mk_state 0 0 0 0 [] in
  let w := Recorder.unbound s 4096 in
  let p := Recorder.hid_parse s in
  let st := Recorder.hid_hw_start (snd p) HID_CONNECT_HIDRAW in
  let o := Recorder.hid_hw_open (snd st) in
  let g := Recorder.sysfs_create_group (snd o) in
  (16 <= kmalloc_avail w)%nat /\
  0 <= fst p /\ 0 <= fst st /\ 0 <= fst o /\ 0 <= fst g /\
  Recorder.probe 16 w =
  (Ret 0,
   mk_world (mk_hid_device (PTR (mk_eizo_data false 1)) (snd g))
     (kmalloc_avail w - 16) (trace w)).
Proof.
  intros s w p st o g.
  assert (Ha : (16 <= kmalloc_avail w)%nat) by (apply Nat.leb_le; reflexivity).
  assert (H1 : 0 <= fst p) by discriminate.
  assert (H2 : 0 <= fst st) by discriminate.
  assert (H3 : 0 <= fst o) by discriminate.
  assert (H4 : 0 <= fst g) by discriminate.
  repeat (split; [assumption|]).
  exact (proj1 (probe_installs_session Recorder.state Recorder.hid_parse
                  Recorder.hid_hw_start Recorder.hid_hw_stop
                  Recorder.hid_hw_open Recorder.hid_hw_close
                  Recorder.sysfs_create_group 16 w
                  (fst p) (fst st) (fst o) (fst g)
                  (snd p) (snd st) (snd o) (snd g)
                  Ha eq_refl H1 eq_refl H2 eq_refl H3 eq_refl H4)).
Defined.

Lemma probe_failure_keeps_driver_data_witness :
  let s := Recorder.mk_state 0 0 0 (- EIO) [] in
  let w := Recorder.unbound s 4096 in
  let p := Recorder.hid_parse s in
  let st := Recorder.hid_hw_start (snd p) HID_CONNECT_HIDRAW in
  let o := Recorder.hid_hw_open (snd st) in
  let g := Recorder.sysfs_create_group (snd o) in
  (16 <= kmalloc_avail w)%nat /\
  0 <= fst p /\ 0 <= fst st /\ 0 <= fst o /\ fst g < 0 /\
  exists w',
    Recorder.probe 16 w = (Ret (fst g), w') /\
    driver_data (hdev w') = PTR (mk_eizo_data false 1) /\
    ll_state (hdev w') = Recorder.hid_hw_stop (Recorder.hid_hw_close (snd g)).
Proof.
  intros s w p st o g.
  assert (Ha : (16 <= kmalloc_avail w)%nat) by (apply Nat.leb_le; reflexivity).
  assert (H1 : 0 <= fst p) by discriminate.
  assert (H2 : 0 <= fst st) by discriminate.
  assert (H3 : 0 <= fst o) by discriminate.
  assert (H4 : fst g < 0) by reflexivity.
  repeat (split; [assumption|]).
  exact (proj2 (probe_failure_keeps_driver_data Recorder.state
                  Recorder.hid_parse Recorder.hid_hw_start Recorder.hid_hw_stop
                  Recorder.hid_hw_open Recorder.hid_hw_close
                  Recorder.sysfs_create_group 16 w
                  (fst p) (fst st) (fst o) (fst g)
                  (snd p) (snd st) (snd o) (snd g)
                  Ha eq_refl H1 eq_refl H2 eq_refl eq_refl) H3 H4).
Defined.

Lemma probe_allocation_failure_witness :
  let s := Recorder.mk_state 0 0 0 0 [] in
  let w := Recorder.unbound s 0 in
  let p := Recorder.hid_parse s in
  let st := Recorder.hid_hw_start (snd p) HID_CONNECT_HIDRAW in
  (kmalloc_avail w < 16)%nat /\ 0 <= fst p /\ 0 <= fst st /\
  Recorder.probe 16 w =
  (Fault BadPointer,
   mk_world (mk_hid_device NULL (snd st)) (kmalloc_avail w) (trace w)).
Proof.
  intros s w p st.
  assert (Ha : (kmalloc_avail w < 16)%nat) by (apply Nat.ltb_lt; reflexivity).
  assert (H1 : 0 <= fst p) by discriminate.
  assert (H2 : 0 <= fst st) by discriminate.
  repeat (split; [assumption|]).
  exact (probe_allocation_failure Recorder.state Recorder.hid_parse
           Recorder.hid_hw_start Recorder.hid_hw_stop Recorder.hid_hw_open
           Recorder.hid_hw_close Recorder.sysfs_create_group 16 w
           (fst p) (fst st) (snd p) (snd st)
           Ha eq_refl H1 eq_refl H2).
Defined.

Lemma probe_unwinds_in_order_witness :
  (16 <= 4096)%nat /\ 0 <= 0 /\ - EIO < 0 /\
  let run :=
    Recorder.probe 16
      (Recorder.unbound (Recorder.mk_state 0 0 (- EIO) 0 []) 4096) in
  fst run = Ret (- EIO) /\
  Recorder.calls (ll_state (hdev (snd run))) =
    [Recorder.HidParse; Recorder.HidHwStart 4; Recorder.HidHwOpen;
     Recorder.HidHwStop].
Proof.
  assert (Ha : (16 <= 4096)%nat) by (apply Nat.leb_le; reflexivity).
  assert (H0 : 0 <= 0) by discriminate.
  assert (Hf : - EIO < 0) by reflexivity.
  split; [exact Ha|]. split; [exact H0|]. split; [exact Hf|].
  exact (proj1 (proj2 (proj2 (probe_unwinds_in_order 0 0 (- EIO) 0 16 4096 Ha)))
           H0 H0 Hf).
Defined.

Lemma remove_undoes_probe_witness :
  (16 <= 4096)%nat /\ 0 <= 0 /\
  exists w1 w2,
    Recorder.probe 16
      (Recorder.unbound (Recorder.mk_state 0 0 0 0 []) 4096) = (Ret 0, w1) /\
    Recorder.remove w1 = (Ret tt, w2) /\
    Recorder.calls (ll_state (hdev w2)) =
      [Recorder.HidParse; Recorder.HidHwStart 4; Recorder.HidHwOpen;
       Recorder.SysfsCreateGroup;
       Recorder.SysfsRemoveGroup; Recorder.HidHwClose; Recorder.HidHwStop] /\
    driver_data (hdev w2) = PTR (mk_eizo_data false 1).
Proof.
  assert (Ha : (16 <= 4096)%nat) by (apply Nat.leb_le; reflexivity).
  assert (H0 : 0 <= 0) by discriminate.
  split; [exact Ha|]. split; [exact H0|].
  exact (remove_undoes_probe 0 0 0 0 16 4096 Ha H0 H0 H0 H0).
Defined.


(** ** Payload length and sequence counter *)

Section LengthAndCounter.

Variable device : Type.
Variable ll_raw_request :
  device -> Z -> list Z -> nat -> hid_report_type -> hid_class_request ->
  Z * list Z * device.

Abbreviation set_value_lc := (eizo_set_value device ll_raw_request).
Abbreviation get_value_lc := (eizo_get_value device ll_raw_request).

(** What get does with a length above 32 on a ready session: the length
    plays no part until the final copy. *)
Lemma get_value_oversized
    (w : world device) (c usage : Z) (value : list Z) (len : nat) :
  ready w c -> (32 < len)%nat ->
  let frame := request_frame usage c [] in
  exists r1 resp1 d1,
    ll_raw_request (ll_state (hdev w)) 3 frame 39
      HID_FEATURE_REPORT HID_REQ_SET_REPORT = (r1, resp1, d1) /\
    let arm :=
      EvRawRequest 3 frame 39 HID_FEATURE_REPORT HID_REQ_SET_REPORT r1 in
    let frame1 := deposit resp1 frame 39 in
    ((r1 < 0 /\
      get_value_lc usage value len w =
      (Ret (r1, value),
       mk_world (mk_hid_device (PTR (mk_eizo_data false c)) d1)
         (kmalloc_avail w)
         (trace w ++
          [EvLock; arm;
           EvLog KERN_ERR "failed to set hid report: %d\n" [r1];
           EvUnlock]))) \/
     (0 <= r1 /\
      exists r2 resp2 d2,
        ll_raw_request d1 3 frame1 39 HID_FEATURE_REPORT HID_REQ_GET_REPORT
        = (r2, resp2, d2) /\
        let fetch :=
          EvRawRequest 3 frame1 39 HID_FEATURE_REPORT HID_REQ_GET_REPORT r2 in
        ((r2 < 0 /\
          get_value_lc usage value len w =
          (Ret (r2, value),
           mk_world (mk_hid_device (PTR (mk_eizo_data false c)) d2)
             (kmalloc_avail w)
             (trace w ++
              [EvLock; arm; fetch;
               EvLog KERN_ERR "failed to get hid report: %d\n" [r2];
               EvUnlock]))) \/
         (0 <= r2 /\
          get_value_lc usage value len w =
          (Fault OutOfBounds,
           mk_world (mk_hid_device (PTR (mk_eizo_data true c)) d2)
             (kmalloc_avail w - 39)
             (trace w ++ [EvLock; arm; fetch])))))).
Proof.
  intros Hr Hlen. cbv zeta.
  rewrite (get_value_exec device ll_raw_request w c usage value len Hr).
  cbv zeta.
  assert (H32 : (len <=? 32)%nat = false) by (apply Nat.leb_gt; lia).
  rewrite H32. cbn [andb].
  destruct (ll_raw_request (ll_state (hdev w)) 3 (request_frame usage c []) 39
              HID_FEATURE_REPORT HID_REQ_SET_REPORT) as [[r1 resp1] d1].
  exists r1, resp1, d1. split; [reflexivity|].
  destruct (r1 <? 0) eqn:H1.
  { apply Z.ltb_lt in H1. left. auto. }
  apply Z.ltb_ge in H1. right. split; [exact H1|].
  destruct (ll_raw_request d1 3 (deposit resp1 (request_frame usage c []) 39)
              39 HID_FEATURE_REPORT HID_REQ_GET_REPORT) as [[r2 resp2] d2].
  exists r2, resp2, d2. split; [reflexivity|].
  destruct (r2 <? 0) eqn:H2.
  { apply Z.ltb_lt in H2. left. auto. }
  apply Z.ltb_ge in H2. right. auto.
Qed.

(** A status that set returns, in any world and for any length, is
    -ENODATA from the session lookup, 0, or the negative status of the
    transport call of that run. *)
Lemma set_value_status_origin
    (w0 w' : world device) (usage : Z) (value : list Z) (len : nat) (r : Z) :
  set_value_lc usage value len w0 = (Ret r, w') ->
  r = - ENODATA \/ r = 0 \/
  (r < 0 /\
   exists buf added,
     trace w' = trace w0 ++ added /\
     In (EvRawRequest 2 buf 39 HID_FEATURE_REPORT HID_REQ_SET_REPORT r) added).
Proof.
  intros Hrun.
  destruct (set_value_returns _ _ _ _ _ _ _ _ Hrun)
    as [(_ & -> & _)|(c & r0 & d' & _ & -> & ->)]; [now left|].
  right. destruct (r0 <? 0) eqn:H0; [|now left].
  apply Z.ltb_lt in H0. right. split; [exact H0|].
  eexists _, _. split; [reflexivity|]. right. now left.
Qed.

(** The same for get: -ENODATA, 0, or the negative status of the arm or
    of the fetch call of that run. *)
Lemma get_value_status_origin
    (w0 w' : world device) (usage : Z) (value value' : list Z) (len : nat)
    (r : Z) :
  get_value_lc usage value len w0 = (Ret (r, value'), w') ->
  r = - ENODATA \/ r = 0 \/
  (r < 0 /\
   exists buf reqtype added,
     trace w' = trace w0 ++ added /\
     In (EvRawRequest 3 buf 39 HID_FEATURE_REPORT reqtype r) added).
Proof.
  intros Hrun.
  destruct (get_value_returns _ _ _ _ _ _ _ _ _ Hrun)
    as [(_ & -> & _)|(c & r1 & resp1 & d1 & _ & _ & H)]; [now left|].
  cbv zeta in H. right.
  destruct H as [(H1 & -> & _ & ->)
                |(_ & r2 & resp2 & d2 & _ &
                  [(H2 & -> & _ & ->)|(_ & _ & _ & -> & _)])].
  - right. split; [exact H1|].
    eexists _, _, _. split; [reflexivity|]. right. now left.
  - right. split; [exact H2|].
    eexists _, _, _. split; [reflexivity|]. right. right. now left.
  - now left.
Qed.

(** C1 (amended): neither set nor get validates the payload length, and
    neither produces InvalidArgument of its own.  On a bound session with
    a free token and the frame allocated, a length above 32 is not
    rejected up front.  Set takes the token and its payload copy leaves
    the 39-byte frame before any transport call.  Get takes the token and
    issues the arm call; if the arm fails it returns the arm's status, if
    the arm succeeds it issues the fetch and returns the fetch's status
    if that fails (the output buffer untouched in both cases), and with
    both calls successful it copies from beyond the frame, the token
    still held.  In any world and for any length, a status that set or
    get returns is -ENODATA, 0, or the negative status of a transport
    call made in that run. *)
Theorem oversized_payload_not_rejected
    (w : world device) (c usage : Z) (value : list Z) (len : nat) :
  ready w c -> (32 < len)%nat ->
  (* set: token taken, no transport call, the copy overruns the frame *)
  set_value_lc usage value len w =
  (Fault OutOfBounds,
   mk_world (mk_hid_device (PTR (mk_eizo_data true c)) (ll_state (hdev w)))
     (kmalloc_avail w - 39) (trace w ++ [EvLock])) /\
  (* get: arm, then fetch, then the overrun; a failing call ends the run *)
  (let frame := request_frame usage c [] in
   exists r1 resp1 d1,
     ll_raw_request (ll_state (hdev w)) 3 frame 39
       HID_FEATURE_REPORT HID_REQ_SET_REPORT = (r1, resp1, d1) /\
     let arm :=
       EvRawRequest 3 frame 39 HID_FEATURE_REPORT HID_REQ_SET_REPORT r1 in
     let frame1 := deposit resp1 frame 39 in
     ((r1 < 0 /\
       get_value_lc usage value len w =
       (Ret (r1, value),
        mk_world (mk_hid_device (PTR (mk_eizo_data false c)) d1)
          (kmalloc_avail w)
          (trace w ++
           [EvLock; arm;
            EvLog KERN_ERR "failed to set hid report: %d\n" [r1];
            EvUnlock]))) \/
      (0 <= r1 /\
       exists r2 resp2 d2,
         ll_raw_request d1 3 frame1 39 HID_FEATURE_REPORT HID_REQ_GET_REPORT
         = (r2, resp2, d2) /\
         let fetch :=
           EvRawRequest 3 frame1 39 HID_FEATURE_REPORT HID_REQ_GET_REPORT r2 in
         ((r2 < 0 /\
           get_value_lc usage value len w =
           (Ret (r2, value),
            mk_world (mk_hid_device (PTR (mk_eizo_data false c)) d2)
              (kmalloc_avail w)
              (trace w ++
               [EvLock; arm; fetch;
                EvLog KERN_ERR "failed to get hid report: %d\n" [r2];
                EvUnlock]))) \/
          (0 <= r2 /\
           get_value_lc usage value len w =
           (Fault OutOfBounds,
            mk_world (mk_hid_device (PTR (mk_eizo_data true c)) d2)
              (kmalloc_avail w - 39)
              (trace w ++ [EvLock; arm; fetch]))))))) /\
  (* neither call is rejected up front *)
  ~ rejected_up_front (fun r => r) w (set_value_lc usage value len w) /\
  ~ rejected_up_front fst w (get_value_lc usage value len w) /\
  (* no status of their own: in any world, for any length *)
  (forall (w0 w' : world device) (usage0 : Z) (value0 : list Z) (len0 : nat)
          (r : Z),
      set_value_lc usage0 value0 len0 w0 = (Ret r, w') ->
      r = - ENODATA \/ r = 0 \/
      (r < 0 /\
       exists buf added,
         trace w' = trace w0 ++ added /\
         In (EvRawRequest 2 buf 39 HID_FEATURE_REPORT HID_REQ_SET_REPORT r)
            added)) /\
  (forall (w0 w' : world device) (usage0 : Z) (value0 value' : list Z)
          (len0 : nat) (r : Z),
      get_value_lc usage0 value0 len0 w0 = (Ret (r, value'), w') ->
      r = - ENODATA \/ r = 0 \/
      (r < 0 /\
       exists buf reqtype added,
         trace w' = trace w0 ++ added /\
         In (EvRawRequest 3 buf 39 HID_FEATURE_REPORT reqtype r) added)).
Proof.
  intros Hr Hlen.
  assert (Hset := set_value_overrun device ll_raw_request w c usage value len
                    Hr (or_introl Hlen)).
  assert (Hget := get_value_oversized w c usage value len Hr Hlen).
  split; [exact Hset|]. split; [exact Hget|].
  split; [|split; [|split]].
  - intros [[a [Ha _]] _]. rewrite Hset in Ha. discriminate.
  - intros [_ [Hl _]]. cbv zeta in Hget.
    destruct Hget as (r1 & resp1 & d1 & _ & Hget).
    assert (Hlock : forall o w' rest,
               get_value_lc usage value len w = (o, w') ->
               trace w' = trace w ++ EvLock :: rest -> False).
    { intros o w' rest Hrun Htr. rewrite Hrun in Hl. cbn [snd] in Hl.
      rewrite Htr in Hl. unfold lock_events in Hl.
      rewrite filter_app in Hl. cbn [filter is_lock_event] in Hl.
      exact (app_cons_neq _ _ _ Hl). }
    destruct Hget as [(_ & Hrun)
                     |(_ & r2 & resp2 & d2 & _ & [(_ & Hrun)|(_ & Hrun)])];
      exact (Hlock _ _ _ Hrun eq_refl).
  - intros w0 w' usage0 value0 len0 r. apply set_value_status_origin.
  - intros w0 w' usage0 value0 value' len0 r. apply get_value_status_origin.
Qed.

(** The counter bytes of a request frame. *)
Lemma request_frame_counter (usage c : Z) (payload : list Z) :
  slice (request_frame usage c payload) 5 2 =
  [Z.land (Z.shiftr c 0) 255; Z.land (Z.shiftr c 8) 255].
Proof. reflexivity. Qed.

(** C7: the sequence counter is 1 once [eizo_data_init] has run.  Every
    call to set or get reads the stored counter into bytes 5-6 of the
    frame it hands to the transport, low byte first, and leaves the
    stored value unchanged; no completed call changes it; hence it is 1
    in every reachable session state. *)
Theorem counter_always_one :
  (* initialisation *)
  (forall data0 : eizo_data, counter (eizo_data_init data0) = 1) /\
  (* the counter is read into the frame and left as stored *)
  (forall (w : world device) (c usage : Z) (value : list Z) (len : nat),
      ready w c ->
      ((len <= 32)%nat -> (len <= length value)%nat ->
       exists r w' buf ret rest,
         set_value_lc usage value len w = (Ret r, w') /\
         trace w' =
           trace w ++
           EvLock ::
           EvRawRequest 2 buf 39 HID_FEATURE_REPORT HID_REQ_SET_REPORT ret ::
           rest /\
         slice buf 5 2 =
           [Z.land (Z.shiftr c 0) 255; Z.land (Z.shiftr c 8) 255] /\
         (0 <= c < 2 ^ 16 -> le_decode (slice buf 5 2) = c) /\
         session_counter w' = Some c) /\
      (exists o w' buf ret rest,
          get_value_lc usage value len w = (o, w') /\
          trace w' =
            trace w ++
            EvLock ::
            EvRawRequest 3 buf 39 HID_FEATURE_REPORT HID_REQ_SET_REPORT ret ::
            rest /\
          slice buf 5 2 =
            [Z.land (Z.shiftr c 0) 255; Z.land (Z.shiftr c 8) 255] /\
          (0 <= c < 2 ^ 16 -> le_decode (slice buf 5 2) = c) /\
          session_counter w' = Some c)) /\
  (* no completed call changes the stored counter *)
  (forall w w' : world device,
      session_step ll_raw_request w w' ->
      session_counter w' = session_counter w) /\
  (* the invariant *)
  (forall w : world device,
      reachable ll_raw_request w -> session_counter w = Some 1).
Proof.
  split; [reflexivity|]. split; [|split].
  - intros w c usage value len Hr. split.
    + intros Hlen Hval.
      rewrite (set_value_exec device ll_raw_request w c usage value len
                 Hr Hlen Hval).
      cbv zeta.
      destruct (ll_raw_request (ll_state (hdev w)) 2
                  (request_frame usage c (firstn len value)) 39
                  HID_FEATURE_REPORT HID_REQ_SET_REPORT) as [[r0 resp] d'].
      eexists _, _, _, _, _. split; [reflexivity|].
      split; [reflexivity|]. rewrite request_frame_counter.
      split; [reflexivity|]. split; [apply le_decode_counter|reflexivity].
    + rewrite (get_value_exec device ll_raw_request w c usage value len Hr).
      cbv zeta.
      destruct (ll_raw_request (ll_state (hdev w)) 3 (request_frame usage c [])
                  39 HID_FEATURE_REPORT HID_REQ_SET_REPORT)
        as [[r1 resp1] d1].
      destruct (r1 <? 0).
      { eexists _, _, _, _, _. split; [reflexivity|].
        split; [reflexivity|]. rewrite request_frame_counter.
        split; [reflexivity|]. split; [apply le_decode_counter|reflexivity]. }
      destruct (ll_raw_request d1 3 (deposit resp1 (request_frame usage c []) 39)
                  39 HID_FEATURE_REPORT HID_REQ_GET_REPORT)
        as [[r2 resp2] d2].
      destruct (r2 <? 0);
        [|destruct ((len <=? 32)%nat && (len <=? length value)%nat)];
        (eexists _, _, _, _, _; split; [reflexivity|];
         split; [reflexivity|]; rewrite request_frame_counter;
         split; [reflexivity|];
         split; [apply le_decode_counter|reflexivity]).
  - exact (session_step_counter device ll_raw_request).
  - intros w Hreach.
    induction Hreach as [data0 d avail tr|w w' _ IH Hstep].
    + reflexivity.
    + now rewrite (session_step_counter device ll_raw_request w w' Hstep).
Qed.

End LengthAndCounter.

Lemma oversized_payload_not_rejected_witness :
  ready echo_bench 1 /\ (32 < 33)%nat /\
  eizo_set_value Echo.state Echo.raw_request 1 (zeroes 33) 33 echo_bench
  = (Fault OutOfBounds,
     mk_world
       (mk_hid_device (PTR (mk_eizo_data true 1)) (ll_state (hdev echo_bench)))
       (kmalloc_avail echo_bench - 39) (trace echo_bench ++ [EvLock])) /\
  ~ rejected_up_front (fun r => r) echo_bench
      (eizo_set_value Echo.state Echo.raw_request 1 (zeroes 33) 33 echo_bench) /\
  ~ rejected_up_front fst echo_bench
      (eizo_get_value Echo.state Echo.raw_request 1 (zeroes 33) 33 echo_bench).
Proof.
  assert (H33 : (32 < 33)%nat) by (apply Nat.ltb_lt; reflexivity).
  split; [exact echo_bench_ready|]. split; [exact H33|].
  destruct (oversized_payload_not_rejected Echo.state Echo.raw_request
              echo_bench 1 1 (zeroes 33) 33 echo_bench_ready H33)
    as (Hset & _ & Hnset & Hnget & _).
  split; [exact Hset|]. split; assumption.
Defined.

Lemma counter_always_one_witness :
  let w1 :=
    snd (eizo_set_value Echo.state Echo.raw_request 1 [170; 187] 2 echo_bench) in
  let w2 :=
    snd (eizo_get_value Echo.state Echo.raw_request 1 [0; 0] 2 w1) in
  (ready echo_bench 1 /\ (2 <= 32)%nat /\ (2 <= length [170; 187])%nat /\
   exists r w' buf ret rest,
     eizo_set_value Echo.state Echo.raw_request 1 [170; 187] 2 echo_bench
     = (Ret r, w') /\
     trace w' =
       trace echo_bench ++
       EvLock ::
       EvRawRequest 2 buf 39 HID_FEATURE_REPORT HID_REQ_SET_REPORT ret ::
       rest /\
     slice buf 5 2 = [1; 0] /\
     (0 <= 1 < 2 ^ 16 -> le_decode (slice buf 5 2) = 1) /\
     session_counter w' = Some 1) /\
  (reachable Echo.raw_request w2 /\ session_counter w2 = Some 1).
Proof.
  intros w1 w2.
  assert (H1 : (2 <= 32)%nat) by (apply Nat.leb_le; reflexivity).
  assert (H2 : (2 <= length [170; 187])%nat) by (apply Nat.leb_le; reflexivity).
  assert (Hreach : reachable Echo.raw_request w2).
  { apply reach_step with (w := w1).
    - apply reach_step with (w := echo_bench).
      + apply reach_init.
      + apply (step_set Echo.raw_request 1 [170; 187] 2 echo_bench w1 0).
        reflexivity.
    - apply (step_get Echo.raw_request 1 [0; 0] 2 w1 w2 (0, [170; 187])).
      reflexivity. }
  destruct (counter_always_one Echo.state Echo.raw_request)
    as (_ & Hframe & _ & Hinv).
  split.
  - split; [exact echo_bench_ready|]. split; [exact H1|]. split; [exact H2|].
    exact (proj1 (Hframe echo_bench 1 1 [170; 187] 2%nat echo_bench_ready)
             H1 H2).
  - split; [exact Hreach|]. exact (Hinv w2 Hreach).
Defined.
